(** * AnonForum: the request handlers of [anon_forum.py] over their SQLite schema

    The development embeds the Python handlers ([signin], [signout],
    [create_post], [create_comment], [vote], [posts_api]) and the SQL
    statements they run as functions on an explicit database value.

    - A Python [str] is a list of Unicode code points; [strip], slicing and
      comparison work on code points as they do in Python and in SQLite's
      BINARY collation.
    - A decoded JSON payload is a value of type [json]; the Python
      expressions [x or d], [int(x)], [x.strip()] and [data.get(k)] are
      written out on it, with the exceptions they raise.
    - A table is the list of its rows in rowid order, which is the order of
      a table scan; [ORDER BY] is the stable sort SQLite's sorter performs on
      the scanned rows.
    - What a handler reads from outside the file (the clock, the random
      token, the session cookie, the peer address) is an argument.
    - Faults of the storage itself (I/O errors, a full disk, exhausted
      rowids, lock time-outs) are not modelled. *)

From Stdlib Require Import ZArith NArith List Bool Lia String Ascii.
From Stdlib Require Import Sorting.Sorted Sorting.Permutation.
Import ListNotations.

Set Warnings "-register-all".
Local Open Scope Z_scope.

(** ** Python values *)

(** A [str]: its code points. *)
Definition pystr := list N.

Definition py (s : string) : pystr := map N_of_ascii (list_ascii_of_string s).

(** Exceptions that the handlers can meet. [HTTPException] is what Flask
    raises by itself inside [request.get_json()]. *)
Inductive exn : Type :=
| AttributeError
| TypeError
| ValueError
| OverflowError
| UnicodeEncodeError
| IntegrityError
| HTTPException (code : Z).

Inductive result (A : Type) : Type :=
| Ok (a : A)
| Raise (e : exn).
Arguments Ok {A} a.
Arguments Raise {A} e.

Definition bind {A B : Type} (r : result A) (k : A -> result B) : result B :=
  match r with
  | Ok a => k a
  | Raise e => Raise e
  end.

Notation "x <- r ;; k" := (bind r (fun x => k))
  (at level 61, r at next level, right associativity).

(** A Python float as far as [int()] and truth testing look at it: a finite
    double is the rational [num/den]; every double is one of the three. *)
Inductive pyfloat : Type :=
| FFinite (num : Z) (den : positive)
| FNan
| FInf.

Inductive json : Type :=
| JNull
| JBool (b : bool)
| JInt (z : Z)
| JFloat (f : pyfloat)
| JStr (s : pystr)
| JList (l : list json)
| JDict (kvs : list (pystr * json)).

Definition pystr_eqb (a b : pystr) : bool :=
  if list_eq_dec N.eq_dec a b then true else false.

(** [str.isspace()] of one character, which is what [str.strip()] removes. *)
Definition isspace (c : N) : bool :=
  ((9 <=? c) && (c <=? 13) || (28 <=? c) && (c <=? 32)
   || (c =? 133) || (c =? 160) || (c =? 5760)
   || (8192 <=? c) && (c <=? 8202)
   || (c =? 8232) || (c =? 8233) || (c =? 8239) || (c =? 8287)
   || (c =? 12288))%N.

Fixpoint lstrip (s : pystr) : pystr :=
  match s with
  | [] => []
  | c :: s' => if isspace c then lstrip s' else s
  end.

Definition rstrip (s : pystr) : pystr := rev (lstrip (rev s)).

(** [s.strip()] *)
Definition strip (s : pystr) : pystr := rstrip (lstrip s).

(** [s[:n]] *)
Definition slice_to (n : nat) (s : pystr) : pystr := firstn n s.

(** [bool(x)] *)
Definition truthy (j : json) : bool :=
  match j with
  | JNull => false
  | JBool b => b
  | JInt z => negb (z =? 0)
  | JFloat (FFinite n _) => negb (n =? 0)
  | JFloat _ => true
  | JStr s => match s with [] => false | _ => true end
  | JList l => match l with [] => false | _ => true end
  | JDict kvs => match kvs with [] => false | _ => true end
  end.

(** [x or d], where a missing key has already given [None]. *)
Definition py_or (x : option json) (d : json) : json :=
  match x with
  | Some j => if truthy j then j else d
  | None => d
  end.

Fixpoint assoc (k : pystr) (kvs : list (pystr * json)) : option json :=
  match kvs with
  | [] => None
  | (k', v) :: rest => if pystr_eqb k k' then Some v else assoc k rest
  end.

(** [data.get(k)]: only a dict has the method. *)
Definition py_get (data : json) (k : pystr) : result (option json) :=
  match data with
  | JDict kvs => Ok (assoc k kvs)
  | _ => Raise AttributeError
  end.

(** [x.strip()]: only a str has the method. *)
Definition py_strip (x : json) : result pystr :=
  match x with
  | JStr s => Ok (strip s)
  | _ => Raise AttributeError
  end.

Section Interpreter.

(** [int(s)] for a str [s] is the interpreter's: which digits it accepts and
    how long a literal may be depends on its version. [None] is its
    ValueError. *)
Variable int_of_str : pystr -> option Z.

(** [int(x)] *)
Definition py_int (x : json) : result Z :=
  match x with
  | JNull => Raise TypeError
  | JBool b => Ok (if b then 1 else 0)
  | JInt z => Ok z
  | JFloat (FFinite n d) => Ok (Z.quot n (Zpos d))
  | JFloat FNan => Raise ValueError
  | JFloat FInf => Raise OverflowError
  | JStr s =>
    match int_of_str s with
    | Some z => Ok z
    | None => Raise ValueError
    end
  | JList _ => Raise TypeError
  | JDict _ => Raise TypeError
  end.

End Interpreter.

(** ** SQLite values and tables *)

(** TEXT values compare by code point under the BINARY collation. *)
Fixpoint str_compare (a b : pystr) : comparison :=
  match a, b with
  | [], [] => Eq
  | [], _ :: _ => Lt
  | _ :: _, [] => Gt
  | x :: a', y :: b' =>
    match N.compare x y with
    | Eq => str_compare a' b'
    | c => c
    end
  end.

Definition str_leb (a b : pystr) : bool :=
  match str_compare a b with
  | Gt => false
  | _ => true
  end.

Definition str_ltb (a b : pystr) : bool :=
  match str_compare a b with
  | Lt => true
  | _ => false
  end.

(** The sqlite3 adapter refuses a Python int outside 64 bits and a str that
    has no UTF-8 encoding (a lone surrogate, which a JSON escape can give).
    Only values taken from the request payload can be such: the clock, the
    token generator, the session and the server supply ASCII text, and ids
    read back from a table fit. *)
Definition min_int64 : Z := - 2 ^ 63.
Definition max_int64 : Z := 2 ^ 63 - 1.

Definition bind_int (z : Z) : result Z :=
  if (min_int64 <=? z) && (z <=? max_int64) then Ok z else Raise OverflowError.

Definition is_surrogate (c : N) : bool := ((55296 <=? c) && (c <=? 57343))%N.

Definition bind_text (s : pystr) : result pystr :=
  if existsb is_surrogate s then Raise UnicodeEncodeError else Ok s.

Record user_row : Type := mk_user {
  u_id : Z;
  u_display_name : pystr;
  u_anon_id : pystr;
  u_created_at : pystr
}.

Record post_row : Type := mk_post {
  p_id : Z;
  p_user_id : option Z;
  p_title : pystr;
  p_body : pystr;
  p_score : Z;
  p_created_at : pystr
}.

Record comment_row : Type := mk_comment {
  c_id : Z;
  c_post_id : Z;
  c_user_id : option Z;
  c_body : pystr;
  c_created_at : pystr
}.

Record vote_row : Type := mk_vote {
  v_id : Z;
  v_user_anon : pystr;
  v_target_type : pystr;
  v_target_id : Z;
  v_value : Z
}.

(** The four tables, each in rowid order, and the [sqlite_sequence] entry
    that AUTOINCREMENT keeps for each. *)
Record db : Type := mk_db {
  users : list user_row;
  posts : list post_row;
  comments : list comment_row;
  votes : list vote_row;
  seq_users : Z;
  seq_posts : Z;
  seq_comments : Z;
  seq_votes : Z
}.

(** [init_db] on a fresh file. *)
Definition init_db : db := mk_db [] [] [] [] 0 0 0 0.

Definition max_id (ids : list Z) : Z := fold_right Z.max 0 ids.

(** AUTOINCREMENT: one more than the largest rowid the table ever had. *)
Definition next_rowid (seq : Z) (ids : list Z) : Z := Z.max seq (max_id ids) + 1.

(** Stable insertion sort: what [ORDER BY] does to the scanned rows. *)
Section OrderBy.
Context {A : Type}.
Variable leb : A -> A -> bool.

Fixpoint insert_sorted (x : A) (l : list A) : list A :=
  match l with
  | [] => [x]
  | y :: l' => if leb x y then x :: l else y :: insert_sorted x l'
  end.

Definition order_by (l : list A) : list A := fold_right insert_sorted [] l.
End OrderBy.

(** [l LEFT JOIN users u ON user_id = u.id], keeping [u.display_name]. *)
Definition left_join_users {A : Type} (user_id : A -> option Z) (us : list user_row)
    (l : list A) : list (A * option pystr) :=
  flat_map
    (fun r =>
       match match user_id r with
             | Some uid => filter (fun u => uid =? u_id u) us
             | None => []
             end with
       | [] => [(r, None)]
       | ms => map (fun u => (r, Some (u_display_name u))) ms
       end)
    l.

(** [SELECT * FROM users WHERE anon_id = ?] with [fetchone()]. *)
Definition select_user_by_anon (anon : pystr) (d : db) : option user_row :=
  hd_error (filter (fun u => pystr_eqb anon (u_anon_id u)) (users d)).

(** [INSERT INTO users (display_name, anon_id, created_at)]; [anon_id] is UNIQUE. *)
Definition insert_user (name anon now : pystr) (d : db) : result db :=
  if existsb (fun u => pystr_eqb anon (u_anon_id u)) (users d)
  then Raise IntegrityError
  else
    let id := next_rowid (seq_users d) (map u_id (users d)) in
    Ok (mk_db (users d ++ [mk_user id name anon now]) (posts d) (comments d) (votes d)
              id (seq_posts d) (seq_comments d) (seq_votes d)).

(** [INSERT INTO posts (user_id, title, body, created_at)]; [score] takes its
    default 0. *)
Definition insert_post (user_id : option Z) (title body now : pystr) (d : db) : db :=
  let id := next_rowid (seq_posts d) (map p_id (posts d)) in
  mk_db (users d) (posts d ++ [mk_post id user_id title body 0 now]) (comments d) (votes d)
        (seq_users d) id (seq_comments d) (seq_votes d).

(** [INSERT INTO comments (post_id, user_id, body, created_at)]; foreign keys
    are not enforced (the connection never turns them on). *)
Definition insert_comment (post_id : Z) (user_id : option Z) (body now : pystr) (d : db) : db :=
  let id := next_rowid (seq_comments d) (map c_id (comments d)) in
  mk_db (users d) (posts d) (comments d ++ [mk_comment id post_id user_id body now]) (votes d)
        (seq_users d) (seq_posts d) id (seq_votes d).

Definition vote_key_eqb (anon ty : pystr) (tid : Z) (v : vote_row) : bool :=
  pystr_eqb anon (v_user_anon v) && pystr_eqb ty (v_target_type v) && (tid =? v_target_id v).

(** [INSERT OR REPLACE INTO votes (user_anon, target_type, target_id, value)]:
    the rows that clash on UNIQUE(user_anon, target_type, target_id) are
    deleted and the new row is added under a fresh rowid. *)
Definition insert_or_replace_vote (anon ty : pystr) (tid value : Z) (d : db) : db :=
  let id := next_rowid (seq_votes d) (map v_id (votes d)) in
  mk_db (users d) (posts d) (comments d)
        (filter (fun v => negb (vote_key_eqb anon ty tid v)) (votes d)
           ++ [mk_vote id anon ty tid value])
        (seq_users d) (seq_posts d) (seq_comments d) id.

Definition vote_on (ty : pystr) (tid : Z) (v : vote_row) : bool :=
  pystr_eqb ty (v_target_type v) && (tid =? v_target_id v).

Definition sum_values (vs : list vote_row) : Z := fold_right Z.add 0 (map v_value vs).

(** [SELECT SUM(value) FROM votes WHERE target_type=? AND target_id=?]:
    NULL when no row matches. *)
Definition select_sum_votes (ty : pystr) (tid : Z) (d : db) : option Z :=
  match filter (vote_on ty tid) (votes d) with
  | [] => None
  | vs => Some (sum_values vs)
  end.

(** [UPDATE posts SET score = ? WHERE id = ?] *)
Definition update_score (s tid : Z) (d : db) : db :=
  mk_db (users d)
        (map (fun p => if p_id p =? tid
                       then mk_post (p_id p) (p_user_id p) (p_title p) (p_body p) s (p_created_at p)
                       else p) (posts d))
        (comments d) (votes d)
        (seq_users d) (seq_posts d) (seq_comments d) (seq_votes d).

(** ** The request and the handlers *)

(** What Flask hands to a view: the [anon_id] entry of the signed session
    cookie, [request.remote_addr], and the outcome of [request.get_json()]. *)
Record request : Type := mk_request {
  session_anon_id : option pystr;
  remote_addr : option pystr;
  get_json : result json
}.

(** What a view reads from the system: [datetime.utcnow().isoformat()] and
    [secrets.token_urlsafe(12)]. *)
Record env : Type := mk_env {
  now : pystr;
  token : pystr
}.

(** The response status, the committed database and the session the client
    is left with. *)
Record outcome : Type := mk_outcome {
  status : Z;
  db_after : db;
  session_after : option pystr
}.

(** Flask answers an exception that escapes a view with 500, and its own
    HTTP exceptions with their code. *)
Definition status_of_exn (e : exn) : Z :=
  match e with
  | HTTPException c => c
  | _ => 500
  end.

Definition is_empty (s : pystr) : bool :=
  match s with
  | [] => true
  | _ => false
  end.

(** [request.get_json() or {}] *)
Definition request_data (req : request) : result json :=
  j <- get_json req ;; Ok (if truthy j then j else JDict []).

(** [(data.get(k) or '').strip()[:n]] *)
Definition text_field (data : json) (k : pystr) (n : nat) : result pystr :=
  x <- py_get data k ;;
  s <- py_strip (py_or x (JStr [])) ;;
  Ok (slice_to n s).

(** [current_user()] *)
Definition current_user (req : request) (d : db) : option user_row :=
  match session_anon_id req with
  | Some (c :: a) => select_user_by_anon (c :: a) d
  | _ => None
  end.

(** [session.get('anon_id') or request.remote_addr or 'anonymous'] *)
Definition voter_identity (req : request) : pystr :=
  match session_anon_id req with
  | Some (c :: a) => c :: a
  | _ =>
    match remote_addr req with
    | Some (c :: a) => c :: a
    | _ => py "anonymous"
    end
  end.

Definition s_post : pystr := py "post".
Definition s_comment : pystr := py "comment".

(** [db.execute('SELECT SUM(value) ...').fetchone()['s'] or 0] *)
Definition recalc_score (ty : pystr) (tid : Z) (d : db) : Z :=
  match select_sum_votes ty tid d with
  | Some z => if z =? 0 then 0 else z
  | None => 0
  end.

(** The body of the [try] block of [vote], up to the commit. *)
Definition vote_tx (anon ty : pystr) (tid value : Z) (d : db) : result db :=
  tid' <- bind_int tid ;;
  let d1 := insert_or_replace_vote anon ty tid' value d in
  if pystr_eqb ty s_post
  then Ok (update_score (recalc_score ty tid' d1) tid' d1)
  else Ok d1.

Section Handlers.

Variable int_of_str : pystr -> option Z.

(** [int(data.get(k) or 0)] *)
Definition int_field (data : json) (k : pystr) : result Z :=
  x <- py_get data k ;; py_int int_of_str (py_or x (JInt 0)).

Definition signin (req : request) (e : env) (d : db) : outcome :=
  let fail st := mk_outcome st d (session_anon_id req) in
  match (data <- request_data req ;; text_field data (py "display_name") 30) with
  | Raise ex => fail (status_of_exn ex)
  | Ok name =>
    if is_empty name then fail 400
    else
      match (n <- bind_text name ;; insert_user n (token e) (now e) d) with
      | Raise ex => fail (status_of_exn ex)
      | Ok d' => mk_outcome 204 d' (Some (token e))
      end
  end.

Definition signout (req : request) (d : db) : outcome := mk_outcome 302 d None.

Definition create_post (req : request) (e : env) (d : db) : outcome :=
  let fail st := mk_outcome st d (session_anon_id req) in
  let user := current_user req d in
  match (data <- request_data req ;;
         title <- text_field data (py "title") 200 ;;
         body <- text_field data (py "body") 4000 ;;
         Ok (title, body)) with
  | Raise ex => fail (status_of_exn ex)
  | Ok (title, body) =>
    if is_empty title || is_empty body then fail 400
    else
      let user_id := option_map u_id user in
      match (t <- bind_text title ;; b <- bind_text body ;; Ok (t, b)) with
      | Raise ex => fail (status_of_exn ex)
      | Ok (t, b) =>
        mk_outcome 204 (insert_post user_id t b (now e) d) (session_anon_id req)
      end
  end.

Definition create_comment (req : request) (e : env) (d : db) : outcome :=
  let fail st := mk_outcome st d (session_anon_id req) in
  let user := current_user req d in
  match (data <- request_data req ;;
         post_id <- int_field data (py "post_id") ;;
         body <- text_field data (py "body") 1000 ;;
         Ok (post_id, body)) with
  | Raise ex => fail (status_of_exn ex)
  | Ok (post_id, body) =>
    if (post_id =? 0) || is_empty body then fail 400
    else
      let user_id := option_map u_id user in
      match (p <- bind_int post_id ;; b <- bind_text body ;; Ok (p, b)) with
      | Raise ex => fail (status_of_exn ex)
      | Ok (p, b) =>
        mk_outcome 204 (insert_comment p user_id b (now e) d) (session_anon_id req)
      end
  end.

Definition vote (req : request) (d : db) : outcome :=
  let fail st := mk_outcome st d (session_anon_id req) in
  let anon := voter_identity req in
  match (data <- request_data req ;;
         target_type <- py_get data (py "target_type") ;;
         target_id <- int_field data (py "target_id") ;;
         value <- int_field data (py "value") ;;
         Ok (target_type, target_id, value)) with
  | Raise ex => fail (status_of_exn ex)
  | Ok (Some (JStr ty), target_id, value) =>
    if negb (pystr_eqb ty s_post || pystr_eqb ty s_comment)
       || (target_id <=? 0)
       || negb ((value =? -1) || (value =? 1))
    then fail 400
    else
      match vote_tx anon ty target_id value d with
      | Ok d' => mk_outcome 204 d' (session_anon_id req)
      | Raise _ => fail 500
      end
  | Ok _ => fail 400
  end.

End Handlers.

(** The JSON that [posts_api] returns. *)
Record comment_view : Type := mk_comment_view {
  cv_id : Z;
  cv_post_id : Z;
  cv_user_id : option Z;
  cv_body : pystr;
  cv_created_at : pystr;
  cv_display_name : option pystr
}.

Record post_view : Type := mk_post_view {
  pv_id : Z;
  pv_title : pystr;
  pv_body : pystr;
  pv_score : Z;
  pv_created_at : pystr;
  pv_display_name : option pystr;
  pv_comments : list comment_view
}.

Definition created_asc {A : Type} (created : A -> pystr) (a b : A) : bool :=
  str_leb (created a) (created b).

Definition created_desc {A : Type} (created : A -> pystr) (a b : A) : bool :=
  str_leb (created b) (created a).

(** [SELECT c.*, u.display_name FROM comments c LEFT JOIN users u ON
    c.user_id=u.id WHERE c.post_id = ? ORDER BY c.created_at ASC] *)
Definition select_comments (pid : Z) (d : db) : list comment_view :=
  map (fun cu : comment_row * option pystr =>
         let (c, dn) := cu in
         mk_comment_view (c_id c) (c_post_id c) (c_user_id c) (c_body c) (c_created_at c) dn)
      (order_by (created_asc (fun cu : comment_row * option pystr => c_created_at (fst cu)))
         (filter (fun cu : comment_row * option pystr => c_post_id (fst cu) =? pid)
            (left_join_users c_user_id (users d) (comments d)))).

(** [SELECT p.*, u.display_name FROM posts p LEFT JOIN users u ON
    p.user_id=u.id ORDER BY p.created_at DESC], then the loop over its rows. *)
Definition posts_api (d : db) : list post_view :=
  map (fun pu : post_row * option pystr =>
         let (p, dn) := pu in
         mk_post_view (p_id p) (p_title p) (p_body p) (p_score p) (p_created_at p) dn
                      (select_comments (p_id p) d))
      (order_by (created_desc (fun pu : post_row * option pystr => p_created_at (fst pu)))
         (left_join_users p_user_id (users d) (posts d))).

(** The views that write, as one step function. *)
Inductive call : Type :=
| Signin
| Signout
| CreatePost
| CreateComment
| Vote.

Definition handle (int_of_str : pystr -> option Z) (c : call) (req : request) (e : env)
    (d : db) : outcome :=
  match c with
  | Signin => signin req e d
  | Signout => signout req d
  | CreatePost => create_post req e d
  | CreateComment => create_comment int_of_str req e d
  | Vote => vote int_of_str req d
  end.

(** The databases the application can be in: [init_db] followed by requests. *)
Inductive reachable (int_of_str : pystr -> option Z) : db -> Prop :=
| reach_init : reachable int_of_str init_db
| reach_step (c : call) (req : request) (e : env) (d : db) :
    reachable int_of_str d ->
    reachable int_of_str (db_after (handle int_of_str c req e d)).

(** One instance of [int(s)], used to run the handlers on concrete requests:
    an ASCII decimal literal with an optional sign. The underscores and the
    non-ASCII digits that Python also reads are left out. *)
Fixpoint digits_value (acc : Z) (s : pystr) : option Z :=
  match s with
  | [] => Some acc
  | c :: s' =>
    if ((48 <=? c) && (c <=? 57))%N
    then digits_value (10 * acc + (Z.of_N c - 48)) s'
    else None
  end.

Definition ascii_int (s : pystr) : option Z :=
  match strip s with
  | [] => None
  | 45%N :: ((_ :: _) as ds) => option_map Z.opp (digits_value 0 ds)
  | 43%N :: ((_ :: _) as ds) => digits_value 0 ds
  | ds => digits_value 0 ds
  end.

(** ** Notions used in the statements *)



(** Text that SQLite can store: it has a UTF-8 encoding. *)
Definition encodable (s : pystr) : Prop := existsb is_surrogate s = false.

Definition vote_key (v : vote_row) : pystr * pystr * Z :=
  (v_user_anon v, v_target_type v, v_target_id v).

(** The vote rows of one voter on one target. *)
Definition votes_of (anon ty : pystr) (tid : Z) (d : db) : list vote_row :=
  filter (vote_key_eqb anon ty tid) (votes d).

(** The vote rows on one target. *)
Definition votes_on (ty : pystr) (tid : Z) (d : db) : list vote_row :=
  filter (vote_on ty tid) (votes d).

(** A [vote] request that passes the view's validation: it names the target
    [(ty, tid)] and the value [v], and [tid] is within SQLite's integers. *)
Definition valid_vote (int_of_str : pystr -> option Z) (req : request)
    (ty : pystr) (tid v : Z) : Prop :=
  exists kvs,
    request_data req = Ok (JDict kvs)
    /\ assoc (py "target_type") kvs = Some (JStr ty)
    /\ int_field int_of_str (JDict kvs) (py "target_id") = Ok tid
    /\ int_field int_of_str (JDict kvs) (py "value") = Ok v
    /\ (ty = s_post \/ ty = s_comment)
    /\ 0 < tid <= max_int64
    /\ (v = -1 \/ v = 1).

(** The comment row that a listed comment shows. *)
Definition cv_row (c : comment_view) : comment_row :=
  mk_comment (cv_id c) (cv_post_id c) (cv_user_id c) (cv_body c) (cv_created_at c).

(** Rowids grow along each table and no two vote rows share
    (user_anon, target_type, target_id). *)
Record db_ok (d : db) : Prop := mk_db_ok {
  users_rowids : StronglySorted Z.lt (map u_id (users d));
  posts_rowids : StronglySorted Z.lt (map p_id (posts d));
  comments_rowids : StronglySorted Z.lt (map c_id (comments d));
  votes_unique : NoDup (map vote_key (votes d))
}.

(** The order of two rows in a listing: [a] may stand before [b] under the
    sort key, and rows that tie under it stand by ascending rowid. *)
Definition listed_before {A : Type} (leb : A -> A -> bool) (rowid : A -> Z) (a b : A) : Prop :=
  leb a b = true /\ (leb b a = true -> rowid a < rowid b).

(** Newest first, ties by ascending id. *)
Definition post_before (a b : post_view) : Prop :=
  str_leb (pv_created_at b) (pv_created_at a) = true
  /\ (str_leb (pv_created_at a) (pv_created_at b) = true -> pv_id a < pv_id b).

(** Newest first, ties by descending id. *)
Definition post_before_id_desc (a b : post_view) : Prop :=
  str_leb (pv_created_at b) (pv_created_at a) = true
  /\ (str_leb (pv_created_at a) (pv_created_at b) = true -> pv_id b < pv_id a).

(** Oldest first, ties by ascending id. *)
Definition comment_before (a b : comment_view) : Prop :=
  str_leb (cv_created_at a) (cv_created_at b) = true
  /\ (str_leb (cv_created_at b) (cv_created_at a) = true -> cv_id a < cv_id b).

(** ** Concrete requests and databases *)

Definition req_of (sess addr : option pystr) (kvs : list (pystr * json)) : request :=
  mk_request sess addr (Ok (JDict kvs)).

Definition env0 : env := mk_env (py "2024-01-01T10:00:00.000001") (py "tok-AAAAAAAAAAAA").
Definition env1 : env := mk_env (py "2024-01-01T10:00:00.000002") (py "tok-BBBBBBBBBBBB").

Definition vote_payload (ty : pystr) (tid v : Z) : list (pystr * json) :=
  [(py "target_type", JStr ty); (py "target_id", JInt tid); (py "value", JInt v)].

Definition db_one_post : db :=
  db_after (create_post (req_of None None [(py "title", JStr (py "t")); (py "body", JStr (py "b"))])
              env0 init_db).

Definition post_payload (title body : string) : list (pystr * json) :=
  [(py "title", JStr (py title)); (py "body", JStr (py body))].

Definition comment_payload (post_id : Z) (body : string) : list (pystr * json) :=
  [(py "post_id", JInt post_id); (py "body", JStr (py body))].

Definition at_time (t : string) : env := mk_env (py t) (py "tok-CCCCCCCCCCCC").

(** A sequence of requests, served one after the other. *)
Definition run (int_of_str : pystr -> option Z) (steps : list (call * request * env))
    (d : db) : db :=
  fold_left (fun d0 (s : call * request * env) =>
               let '(c, req, e) := s in db_after (handle int_of_str c req e d0))
            steps d.

(** Two posts; comments arrive on post 1, on post 2, on post 1 within the
    same clock tick as the first, and on post 1 after the clock was set back. *)
Definition db_two_threads : db :=
  run ascii_int
    [(CreatePost, req_of None None (post_payload "one" "b1"), at_time "2024-01-01T10:00:00");
     (CreatePost, req_of None None (post_payload "two" "b2"), at_time "2024-01-01T10:00:01");
     (CreateComment, req_of None None (comment_payload 1 "a"), at_time "2024-01-01T10:00:05");
     (CreateComment, req_of None None (comment_payload 2 "b"), at_time "2024-01-01T10:00:06");
     (CreateComment, req_of None None (comment_payload 1 "c"), at_time "2024-01-01T10:00:05");
     (CreateComment, req_of None None (comment_payload 1 "d"), at_time "2024-01-01T10:00:03")]
    init_db.

(** ** Notions written from the claims' words *)

(** A [vote] request that gets through the view's own checks (the [if] that
    answers 400): a target type 'post' or 'comment', a positive target id
    and a value of -1 or 1. [valid_vote] is this and a target id within 64
    bits. *)
Definition vote_passes_checks (int_of_str : pystr -> option Z) (req : request)
    (ty : pystr) (tid v : Z) : Prop :=
  exists kvs,
    request_data req = Ok (JDict kvs)
    /\ assoc (py "target_type") kvs = Some (JStr ty)
    /\ int_field int_of_str (JDict kvs) (py "target_id") = Ok tid
    /\ int_field int_of_str (JDict kvs) (py "value") = Ok v
    /\ (ty = s_post \/ ty = s_comment)
    /\ 0 < tid
    /\ (v = -1 \/ v = 1).

(** The vote rows with target_type 'post' and target_id [tid], and the sum
    of the values of some rows, written from the claims' words and not
    through the query of [select_sum_votes]. *)
Definition post_rows (tid : Z) (vs : list vote_row) : list vote_row :=
  filter (fun r => pystr_eqb (v_target_type r) s_post && (v_target_id r =? tid)) vs.

Definition vote_total (vs : list vote_row) : Z :=
  fold_right (fun r acc => v_value r + acc) 0 vs.


(** ** Notions used in the further properties *)

(** What the views store as text: [x.strip()[:n]] that passed the emptiness
    test. It is not empty, has at most [n] characters and does not start
    with whitespace. *)
Definition stored_text (n : nat) (s : pystr) : Prop :=
  s <> [] /\ (List.length s <= n)%nat /\ (forall c r, s = c :: r -> isspace c = false).

(** A post row without its score, the only column an UPDATE touches. *)
Definition post_content (p : post_row) : Z * option Z * pystr * pystr * pystr :=
  (p_id p, p_user_id p, p_title p, p_body p, p_created_at p).

(** A vote row without its rowid. *)
Definition vote_content (r : vote_row) : pystr * pystr * Z * Z :=
  (v_user_anon r, v_target_type r, v_target_id r, v_value r).

(** The columns of a post that the listing shows. *)
Definition post_shown (p : post_row) : Z * pystr * pystr * Z * pystr :=
  (p_id p, p_title p, p_body p, p_score p, p_created_at p).

Definition pv_shown (pv : post_view) : Z * pystr * pystr * Z * pystr :=
  (pv_id pv, pv_title pv, pv_body pv, pv_score pv, pv_created_at pv).

(** The database a valid vote commits. *)
Definition voted (anon ty : pystr) (tid v : Z) (d : db) : db :=
  let d1 := insert_or_replace_vote anon ty tid v d in
  if pystr_eqb ty s_post then update_score (recalc_score ty tid d1) tid d1 else d1.

(** The writes a request can commit: none, or exactly one of the four
    INSERT statements with the values the views let through. *)
Inductive written (e : env) (d : db) : db -> Prop :=
| w_none : written e d d
| w_user (name : pystr) (d' : db) :
    stored_text 30 name ->
    insert_user name (token e) (now e) d = Ok d' ->
    written e d d'
| w_post (uid : option Z) (title body : pystr) :
    stored_text 200 title -> stored_text 4000 body ->
    written e d (insert_post uid title body (now e) d)
| w_comment (pid : Z) (uid : option Z) (body : pystr) :
    pid <> 0 -> min_int64 <= pid <= max_int64 -> stored_text 1000 body ->
    written e d (insert_comment pid uid body (now e) d)
| w_vote (anon ty : pystr) (tid v : Z) :
    ty = s_post \/ ty = s_comment -> 0 < tid <= max_int64 -> v = -1 \/ v = 1 ->
    written e d (voted anon ty tid v d).

(** A sign-in, a post by the signed-in user, a guest post, votes from the
    session and from two addresses, and a comment. *)
Definition db_busy : db :=
  run ascii_int
    [(Signin, req_of None None [(py "display_name", JStr (py "  fox99 "))],
      mk_env (py "2024-01-01T09:59:59") (py "tok-AAAAAAAAAAAA"));
     (CreatePost, req_of (Some (py "tok-AAAAAAAAAAAA")) None (post_payload "one" "b1"),
      at_time "2024-01-01T10:00:00");
     (CreatePost, req_of None None (post_payload "two" "b2"), at_time "2024-01-01T10:00:01");
     (Vote, req_of (Some (py "tok-AAAAAAAAAAAA")) None (vote_payload s_post 1 1),
      at_time "2024-01-01T10:00:02");
     (Vote, req_of None (Some (py "10.0.0.7")) (vote_payload s_post 1 1),
      at_time "2024-01-01T10:00:03");
     (Vote, req_of None (Some (py "10.0.0.8")) (vote_payload s_post 1 (-1)),
      at_time "2024-01-01T10:00:04");
     (Vote, req_of None (Some (py "10.0.0.8")) (vote_payload s_comment 1 (-1)),
      at_time "2024-01-01T10:00:04");
     (CreateComment, req_of None None (comment_payload 1 "a"), at_time "2024-01-01T10:00:05")]
    init_db.

(** * Properties *)

Lemma pystr_eqb_eq (a b : pystr) : pystr_eqb a b = true <-> a = b.
Proof.
  unfold pystr_eqb. destruct (list_eq_dec N.eq_dec a b); split; congruence.
Qed.

Lemma pystr_eqb_refl (a : pystr) : pystr_eqb a a = true.
Proof. now apply pystr_eqb_eq. Qed.

Lemma pystr_eqb_neq (a b : pystr) : pystr_eqb a b = false <-> a <> b.
Proof.
  unfold pystr_eqb. destruct (list_eq_dec N.eq_dec a b); split; congruence.
Qed.

(** ** Running the handlers *)

Example strip_runs :
  strip (py "  a b  ") = py "a b"
  /\ strip [9; 160; 8195; 12288]%N = []
  /\ slice_to 3 (strip (py " abcdef ")) = py "abc"
  /\ map isspace [31; 32; 33; 8203]%N = [true; true; false; false].
Proof. repeat split; reflexivity. Qed.

Example ascii_int_runs :
  ascii_int (py " -42 ") = Some (-42) /\ ascii_int (py "7") = Some 7 /\ ascii_int (py "abc") = None.
Proof. repeat split; reflexivity. Qed.

Example run_signin_post_list :
  let o1 := signin (req_of None None [(py "display_name", JStr (py "fox99"))]) env0 init_db in
  let o2 := create_post (req_of (session_after o1) None
                           [(py "title", JStr (py "Hello")); (py "body", JStr (py "World"))])
                        env1 (db_after o1) in
  posts_api (db_after o2)
  = [mk_post_view 1 (py "Hello") (py "World") 0 (now env1) (Some (py "fox99")) []].
Proof. reflexivity. Qed.

Example run_two_voters :
  let d0 := db_after (create_post (req_of None None
                        [(py "title", JStr (py "t")); (py "body", JStr (py "b"))]) env0 init_db) in
  let v (who : pystr) (x : Z) := req_of (Some who) None
                   [(py "target_type", JStr s_post); (py "target_id", JInt 1); (py "value", JInt x)] in
  let d1 := db_after (vote ascii_int (v (py "alice") 1) d0) in
  let d2 := db_after (vote ascii_int (v (py "bob") 1) d1) in
  let d3 := db_after (vote ascii_int (v (py "bob") (-1)) d2) in
  map p_score (posts d2) = [2] /\ map p_score (posts d3) = [0] /\ List.length (votes d3) = 2%nat.
Proof. repeat split; reflexivity. Qed.

(** ** Strings *)


Lemma lstrip_head (s : pystr) (c : N) (r : pystr) :
  lstrip s = c :: r -> isspace c = false.
Proof.
  induction s as [|x s IH]; simpl; [discriminate|].
  destruct (isspace x) eqn:E; [exact IH|].
  intros H. injection H as -> _. exact E.
Qed.


Lemma slice_to_nil (n : nat) (s : pystr) :
  (0 < n)%nat -> (slice_to n s = [] <-> s = []).
Proof.
  intros Hn. unfold slice_to. destruct n; [lia|].
  destruct s; simpl; split; congruence.
Qed.

Lemma str_compare_refl (a : pystr) : str_compare a a = Eq.
Proof.
  induction a as [|x a IH]; simpl; [reflexivity|].
  now rewrite N.compare_refl.
Qed.

Lemma str_compare_eq (a b : pystr) : str_compare a b = Eq -> a = b.
Proof.
  revert b. induction a as [|x a IH]; intros [|y b]; simpl; try discriminate; auto.
  destruct (N.compare_spec x y) as [Hxy|Hxy|Hxy]; try discriminate.
  intros Hc. subst. f_equal. now apply IH.
Qed.

Lemma str_compare_antisym (a b : pystr) : str_compare b a = CompOpp (str_compare a b).
Proof.
  revert b. induction a as [|x a IH]; intros [|y b]; simpl; auto.
  rewrite (N.compare_antisym x y).
  destruct (N.compare x y); simpl; auto.
Qed.

Lemma str_leb_refl (a : pystr) : str_leb a a = true.
Proof. unfold str_leb. now rewrite str_compare_refl. Qed.

Lemma str_leb_total (a b : pystr) : str_leb a b = true \/ str_leb b a = true.
Proof.
  unfold str_leb. rewrite (str_compare_antisym a b).
  destruct (str_compare a b); simpl; auto.
Qed.

Lemma str_leb_antisym (a b : pystr) :
  str_leb a b = true -> str_leb b a = true -> a = b.
Proof.
  unfold str_leb. rewrite (str_compare_antisym a b). intros H1 H2.
  apply str_compare_eq. destruct (str_compare a b); simpl in *; congruence.
Qed.

Lemma str_leb_trans (a b c : pystr) :
  str_leb a b = true -> str_leb b c = true -> str_leb a c = true.
Proof.
  unfold str_leb. revert b c.
  induction a as [|x a IH]; intros [|y b] [|z c]; simpl; auto; try discriminate.
  destruct (N.compare_spec x y), (N.compare_spec y z), (N.compare_spec x z);
    subst; try discriminate; try lia; auto.
  apply IH.
Qed.

Lemma str_ltb_leb (a b : pystr) : str_ltb a b = true -> str_leb b a = false.
Proof.
  unfold str_ltb, str_leb. rewrite (str_compare_antisym a b).
  destruct (str_compare a b); simpl; congruence.
Qed.

(** ** ORDER BY *)

Lemma Forall_perm {A : Type} (P : A -> Prop) (l l' : list A) :
  Permutation l l' -> Forall P l -> Forall P l'.
Proof.
  intros Hp. rewrite !Forall_forall. intros H x Hx.
  apply H. apply (Permutation_in _ (Permutation_sym Hp) Hx).
Qed.

Section OrderByFacts.
Context {A : Type}.
Variable leb : A -> A -> bool.
Variable rowid : A -> Z.
Hypothesis leb_total : forall a b, leb a b = true \/ leb b a = true.
Hypothesis leb_trans : forall a b c, leb a b = true -> leb b c = true -> leb a c = true.

Lemma insert_sorted_perm (x : A) (l : list A) :
  Permutation (insert_sorted leb x l) (x :: l).
Proof.
  induction l as [|y l IH]; simpl; [reflexivity|].
  destruct (leb x y); [reflexivity|].
  rewrite IH. apply perm_swap.
Qed.

Lemma order_by_perm (l : list A) : Permutation (order_by leb l) l.
Proof.
  induction l as [|x l IH]; simpl; [reflexivity|].
  rewrite insert_sorted_perm. now apply perm_skip.
Qed.

Lemma insert_sorted_listed (x : A) (l : list A) :
  StronglySorted (listed_before leb rowid) l ->
  Forall (fun y => rowid x < rowid y) l ->
  StronglySorted (listed_before leb rowid) (insert_sorted leb x l).
Proof.
  induction l as [|y l IH]; intros Hs Hx; simpl.
  - constructor; constructor.
  - inversion Hs as [|? ? Hs' Hy]; subst.
    inversion Hx as [|? ? Hxy Hx']; subst.
    destruct (leb x y) eqn:E.
    + constructor; [exact Hs|].
      constructor; [split; auto|].
      rewrite Forall_forall in *. intros z Hz. split.
      * apply (leb_trans _ y); [exact E|]. now apply Hy.
      * intros _. now apply Hx'.
    + constructor; [now apply IH|].
      apply (Forall_perm _ _ _ (Permutation_sym (insert_sorted_perm x l))).
      constructor; [|exact Hy].
      split; [destruct (leb_total x y); congruence | congruence].
Qed.

Lemma order_by_listed (l : list A) :
  StronglySorted Z.lt (map rowid l) ->
  StronglySorted (listed_before leb rowid) (order_by leb l).
Proof.
  induction l as [|x l IH]; simpl; intros Hs.
  - constructor.
  - inversion Hs as [|? ? Hs' Hx]; subst.
    apply insert_sorted_listed; [now apply IH|].
    apply (Forall_perm _ _ _ (Permutation_sym (order_by_perm l))).
    now rewrite Forall_map in Hx.
Qed.
End OrderByFacts.

(** ** Payload fields *)

Lemma text_field_str (kvs : list (pystr * json)) (k : pystr) (n : nat) (s : pystr) :
  assoc k kvs = Some (JStr s) ->
  text_field (JDict kvs) k n = Ok (slice_to n (strip s)).
Proof.
  intros H. unfold text_field. simpl. rewrite H. simpl.
  destruct s; reflexivity.
Qed.




Lemma bind_text_ok (s : pystr) : encodable s -> bind_text s = Ok s.
Proof. unfold encodable, bind_text. now intros ->. Qed.

Lemma bind_int_ok (z : Z) : min_int64 <= z <= max_int64 -> bind_int z = Ok z.
Proof.
  intros H. unfold bind_int.
  destruct (Z.leb_spec min_int64 z), (Z.leb_spec z max_int64); simpl; auto; lia.
Qed.

Lemma filter_none {A : Type} (f : A -> bool) (l : list A) :
  (forall x, In x l -> f x = false) -> filter f l = [].
Proof.
  induction l as [|x l IH]; intros H; simpl; [reflexivity|].
  rewrite (H x) by now left. apply IH. intros y Hy. apply H. now right.
Qed.

Lemma current_user_unknown (req : request) (d : db) (a : pystr) :
  session_anon_id req = Some a ->
  (forall u, In u (users d) -> u_anon_id u <> a) ->
  current_user req d = None.
Proof.
  intros Hs Hu. unfold current_user. rewrite Hs.
  destruct a as [|c a]; [reflexivity|].
  unfold select_user_by_anon.
  rewrite filter_none; [reflexivity|].
  intros u Hin. apply pystr_eqb_neq. intros E. now apply (Hu u Hin).
Qed.

Lemma int_field_raises (int_of_str : pystr -> option Z) (kvs : list (pystr * json))
    (k : pystr) (ex : exn) :
  int_field int_of_str (JDict kvs) k = Raise ex -> status_of_exn ex = 500.
Proof.
  unfold int_field. simpl.
  destruct (py_or (assoc k kvs) (JInt 0)) as [| | |[| |]| | |]; simpl;
    try discriminate; try (intros [= <-]; reflexivity).
  destruct (int_of_str s); [discriminate | intros [= <-]; reflexivity].
Qed.

(** ** Validation *)






Lemma create_post_ok (req : request) (e : env) (d : db) (kvs : list (pystr * json))
    (t b : pystr) :
  request_data req = Ok (JDict kvs) ->
  assoc (py "title") kvs = Some (JStr t) ->
  assoc (py "body") kvs = Some (JStr b) ->
  strip t <> [] -> strip b <> [] ->
  encodable (slice_to 200 (strip t)) -> encodable (slice_to 4000 (strip b)) ->
  create_post req e d
  = mk_outcome 204
      (insert_post (option_map u_id (current_user req d))
         (slice_to 200 (strip t)) (slice_to 4000 (strip b)) (now e) d)
      (session_anon_id req).
Proof.
  intros Hdata Ht Hb Hnt Hnb Het Heb. unfold create_post.
  rewrite Hdata. cbn [bind].
  rewrite (text_field_str _ _ 200 _ Ht), (text_field_str _ _ 4000 _ Hb). cbn [bind].
  assert (E1 : is_empty (slice_to 200 (strip t)) = false).
  { destruct (slice_to 200 (strip t)) eqn:E; [|reflexivity].
    apply slice_to_nil in E; [contradiction | lia]. }
  assert (E2 : is_empty (slice_to 4000 (strip b)) = false).
  { destruct (slice_to 4000 (strip b)) eqn:E; [|reflexivity].
    apply slice_to_nil in E; [contradiction | lia]. }
  rewrite E1, E2. simpl orb. cbv iota.
  now rewrite (bind_text_ok _ Het), (bind_text_ok _ Heb).
Qed.

Lemma create_comment_ok (int_of_str : pystr -> option Z) (req : request) (e : env) (d : db)
    (kvs : list (pystr * json)) (n : Z) (b : pystr) :
  request_data req = Ok (JDict kvs) ->
  int_field int_of_str (JDict kvs) (py "post_id") = Ok n ->
  assoc (py "body") kvs = Some (JStr b) ->
  n <> 0 -> min_int64 <= n <= max_int64 ->
  strip b <> [] -> encodable (slice_to 1000 (strip b)) ->
  create_comment int_of_str req e d
  = mk_outcome 204
      (insert_comment n (option_map u_id (current_user req d))
         (slice_to 1000 (strip b)) (now e) d)
      (session_anon_id req).
Proof.
  intros Hdata Hn Hb Hn0 Hr Hnb Heb. unfold create_comment.
  rewrite Hdata. cbn [bind]. rewrite Hn, (text_field_str _ _ 1000 _ Hb). cbn [bind].
  assert (E1 : (n =? 0) = false) by now apply Z.eqb_neq.
  assert (E2 : is_empty (slice_to 1000 (strip b)) = false).
  { destruct (slice_to 1000 (strip b)) eqn:E; [|reflexivity].
    apply slice_to_nil in E; [contradiction | lia]. }
  rewrite E1, E2. simpl orb. cbv iota.
  now rewrite (bind_int_ok _ Hr), (bind_text_ok _ Heb).
Qed.

(** C7: [create_comment] lets a negative [post_id] through. Its guard is
    [not post_id], which only stops 0, where [vote] tests [target_id<=0]:
    for every negative [post_id] within 64 bits and every body that is not
    blank the answer is 204 and a comment row with that [post_id] is added. *)
Theorem create_comment_accepts_negative_post_id (int_of_str : pystr -> option Z)
    (req : request) (e : env) (d : db) (kvs : list (pystr * json)) (n : Z) (b : pystr) :
  request_data req = Ok (JDict kvs) ->
  int_field int_of_str (JDict kvs) (py "post_id") = Ok n ->
  assoc (py "body") kvs = Some (JStr b) ->
  min_int64 <= n < 0 ->
  strip b <> [] -> encodable (slice_to 1000 (strip b)) ->
  status (create_comment int_of_str req e d) = 204
  /\ exists id uid,
       comments (db_after (create_comment int_of_str req e d))
       = comments d ++ [mk_comment id n uid (slice_to 1000 (strip b)) (now e)].
Proof.
  intros Hdata Hn Hb Hr Hnb Heb.
  rewrite (create_comment_ok int_of_str req e d kvs n b); auto;
    [|lia | unfold max_int64; lia].
  split; [reflexivity|]. simpl. eauto.
Qed.

Lemma create_comment_accepts_negative_post_id_witness :
  let kvs := [(py "post_id", JInt (-1)); (py "body", JStr (py "x"))] in
  status (create_comment ascii_int (req_of None None kvs) env0 init_db) = 204
  /\ exists id uid,
       comments (db_after (create_comment ascii_int (req_of None None kvs) env0 init_db))
       = comments init_db ++ [mk_comment id (-1) uid (slice_to 1000 (strip (py "x"))) (now env0)].
Proof.
  intros kvs.
  apply (create_comment_accepts_negative_post_id ascii_int (req_of None None kvs) env0
           init_db kvs (-1) (py "x") eq_refl eq_refl eq_refl).
  - unfold min_int64. lia.
  - discriminate.
  - reflexivity.
Defined.

(** The same payload on the two views: [create_comment] stores the row,
    [vote] answers 400. *)
Example negative_id_comment_and_vote :
  create_comment ascii_int
    (req_of None None [(py "post_id", JInt (-1)); (py "body", JStr (py "x"))]) env0 init_db
  = mk_outcome 204 (mk_db [] [] [mk_comment 1 (-1) None (py "x") (now env0)] [] 0 0 1 0) None
  /\ vote ascii_int
       (req_of None None [(py "target_type", JStr s_comment); (py "target_id", JInt (-1));
                          (py "value", JInt 1)]) init_db
     = mk_outcome 400 init_db None.
Proof. split; reflexivity. Qed.

(** ** Listing *)

Lemma left_join_in {A : Type} (uid : A -> option Z) (us : list user_row) (l : list A) (r : A) :
  In r l -> exists dn, In (r, dn) (left_join_users uid us l).
Proof.
  intros H. unfold left_join_users.
  destruct (match uid r with
            | Some i => filter (fun u => i =? u_id u) us
            | None => []
            end) as [|u ms] eqn:E.
  - exists None. apply in_flat_map. exists r. split; [exact H|].
    rewrite E. now left.
  - exists (Some (u_display_name u)). apply in_flat_map. exists r. split; [exact H|].
    rewrite E. now left.
Qed.

Lemma left_join_fst {A : Type} (uid : A -> option Z) (us : list user_row) (l : list A)
    (x : A * option pystr) :
  In x (left_join_users uid us l) -> In (fst x) l.
Proof.
  unfold left_join_users. rewrite in_flat_map. intros (r & Hr & Hx).
  destruct (match uid r with
            | Some i => filter (fun u => i =? u_id u) us
            | None => []
            end) as [|u ms].
  - destruct Hx as [<- | []]. exact Hr.
  - apply in_map_iff in Hx as (u' & <- & _). exact Hr.
Qed.

Lemma posts_api_contains (d : db) (p : post_row) :
  In p (posts d) ->
  exists pv, In pv (posts_api d)
    /\ pv_id pv = p_id p /\ pv_title pv = p_title p /\ pv_body pv = p_body p
    /\ pv_score pv = p_score p /\ pv_created_at pv = p_created_at p.
Proof.
  intros H.
  destruct (left_join_in p_user_id (users d) _ _ H) as [dn Hdn].
  eexists. split.
  - unfold posts_api. apply in_map_iff. exists (p, dn). split; [reflexivity|].
    eapply Permutation_in; [apply Permutation_sym, order_by_perm | exact Hdn].
  - repeat split.
Qed.

(** C3, as the code has it: for every title and body that are not empty
    once trimmed and that SQLite can store as text (no lone surrogate in the
    part that is kept), [create_post] answers 204 and the next [posts_api]
    lists a post whose title is the first 200 characters of the trimmed
    title, whose body is the first 4000 characters of the trimmed body, and
    whose score is 0. *)
Theorem create_post_then_listed (req : request) (e : env) (d : db)
    (kvs : list (pystr * json)) (t b : pystr) :
  request_data req = Ok (JDict kvs) ->
  assoc (py "title") kvs = Some (JStr t) ->
  assoc (py "body") kvs = Some (JStr b) ->
  strip t <> [] -> strip b <> [] ->
  encodable (firstn 200 (strip t)) -> encodable (firstn 4000 (strip b)) ->
  status (create_post req e d) = 204
  /\ exists pv, In pv (posts_api (db_after (create_post req e d)))
       /\ pv_title pv = firstn 200 (strip t)
       /\ pv_body pv = firstn 4000 (strip b)
       /\ pv_score pv = 0
       /\ List.length (pv_title pv) = Nat.min 200 (List.length (strip t))
       /\ List.length (pv_body pv) = Nat.min 4000 (List.length (strip b)).
Proof.
  intros Hdata Ht Hb Hnt Hnb Het Heb.
  rewrite (create_post_ok req e d kvs t b) by assumption.
  split; [reflexivity|]. cbn [db_after].
  set (d' := insert_post _ _ _ _ d).
  destruct (posts_api_contains d'
              (mk_post (next_rowid (seq_posts d) (map p_id (posts d)))
                       (option_map u_id (current_user req d))
                       (slice_to 200 (strip t)) (slice_to 4000 (strip b)) 0 (now e)))
    as (pv & Hin & _ & Htitle & Hbody & Hscore & _).
  { unfold d', insert_post. cbn [posts]. apply in_or_app. right. now left. }
  exists pv. cbn [p_title p_body p_score] in *. unfold slice_to in *.
  rewrite Htitle, Hbody, !length_firstn. auto 10.
Qed.

Lemma create_post_then_listed_witness :
  let kvs := [(py "title", JStr ([32; 9] ++ repeat 120 205 ++ [32])%N);
              (py "body", JStr (py " World "))] in
  let req := req_of None None kvs in
  status (create_post req env0 init_db) = 204
  /\ exists pv, In pv (posts_api (db_after (create_post req env0 init_db)))
       /\ pv_title pv = repeat 120%N 200
       /\ pv_body pv = py "World"
       /\ pv_score pv = 0
       /\ List.length (pv_title pv) = 200%nat
       /\ List.length (pv_body pv) = 5%nat.
Proof.
  intros kvs req.
  apply (create_post_then_listed req env0 init_db kvs
           ([32; 9] ++ repeat 120 205 ++ [32])%N (py " World ") eq_refl eq_refl eq_refl);
    try discriminate; reflexivity.
Defined.

(** C3 as stated fails for a title that holds a lone surrogate code point
    (the JSON escape \ud800): it is not empty once trimmed, the adapter cannot
    encode it, [create_post] answers 500 and the listing stays empty. *)
Lemma create_post_with_lone_surrogate :
  let kvs := [(py "title", JStr [72; 55296; 105]%N); (py "body", JStr (py "World"))] in
  let req := req_of None None kvs in
  strip [72; 55296; 105]%N <> [] /\ strip (py "World") <> []
  /\ create_post req env0 init_db = mk_outcome 500 init_db None
  /\ posts_api (db_after (create_post req env0 init_db)) = [].
Proof. intros kvs req. repeat split; discriminate. Qed.

(** C10: when the session carries a token that no user row has,
    [current_user] finds nobody, and [create_post] and [create_comment]
    still answer 204 for a valid payload, adding their row with a NULL
    [user_id]. *)
Theorem unknown_token_posts_as_guest (int_of_str : pystr -> option Z) (req : request)
    (e : env) (d : db) (a : pystr) (kvs : list (pystr * json)) :
  session_anon_id req = Some a ->
  (forall u, In u (users d) -> u_anon_id u <> a) ->
  request_data req = Ok (JDict kvs) ->
  current_user req d = None
  /\ (forall t b,
        assoc (py "title") kvs = Some (JStr t) ->
        assoc (py "body") kvs = Some (JStr b) ->
        strip t <> [] -> strip b <> [] ->
        encodable (slice_to 200 (strip t)) -> encodable (slice_to 4000 (strip b)) ->
        status (create_post req e d) = 204
        /\ exists id,
             posts (db_after (create_post req e d))
             = posts d ++ [mk_post id None (slice_to 200 (strip t))
                             (slice_to 4000 (strip b)) 0 (now e)])
  /\ (forall n b,
        int_field int_of_str (JDict kvs) (py "post_id") = Ok n ->
        assoc (py "body") kvs = Some (JStr b) ->
        n <> 0 -> min_int64 <= n <= max_int64 ->
        strip b <> [] -> encodable (slice_to 1000 (strip b)) ->
        status (create_comment int_of_str req e d) = 204
        /\ exists id,
             comments (db_after (create_comment int_of_str req e d))
             = comments d ++ [mk_comment id n None (slice_to 1000 (strip b)) (now e)]).
Proof.
  intros Hs Hu Hdata.
  pose proof (current_user_unknown req d a Hs Hu) as Hcu.
  split; [exact Hcu|]. split.
  - intros t b Ht Hb Hnt Hnb Het Heb.
    rewrite (create_post_ok req e d kvs t b) by assumption.
    rewrite Hcu. split; [reflexivity|]. cbn. eauto.
  - intros n b Hn Hb Hn0 Hr Hnb Heb.
    rewrite (create_comment_ok int_of_str req e d kvs n b) by assumption.
    rewrite Hcu. split; [reflexivity|]. cbn. eauto.
Qed.

Lemma unknown_token_posts_as_guest_witness :
  let kvs := [(py "title", JStr (py "T")); (py "body", JStr (py "B"));
              (py "post_id", JInt 7)] in
  let req := req_of (Some (py "stale-token")) None kvs in
  let d := db_after (signin (req_of None None [(py "display_name", JStr (py "fox99"))])
                       env0 init_db) in
  current_user req d = None
  /\ (status (create_post req env1 d) = 204
      /\ exists id, posts (db_after (create_post req env1 d))
                    = posts d ++ [mk_post id None (py "T") (py "B") 0 (now env1)])
  /\ (status (create_comment ascii_int req env1 d) = 204
      /\ exists id, comments (db_after (create_comment ascii_int req env1 d))
                    = comments d ++ [mk_comment id 7 None (py "B") (now env1)]).
Proof.
  intros kvs req d.
  assert (Hu : forall u, In u (users d) -> u_anon_id u <> py "stale-token").
  { intros u [<- | []]. discriminate. }
  destruct (unknown_token_posts_as_guest ascii_int req env1 d (py "stale-token") kvs
              eq_refl Hu eq_refl) as (Hc & Hp & Hm).
  split; [exact Hc|]. split.
  - apply (Hp (py "T") (py "B") eq_refl eq_refl); discriminate || reflexivity.
  - apply (Hm 7 (py "B") eq_refl eq_refl); try discriminate; try reflexivity.
    unfold min_int64, max_int64. lia.
Defined.

(** ** Votes *)

Lemma vote_key_eqb_iff (anon ty : pystr) (tid : Z) (r : vote_row) :
  vote_key_eqb anon ty tid r = true <-> vote_key r = (anon, ty, tid).
Proof.
  unfold vote_key_eqb, vote_key.
  rewrite !andb_true_iff, !pystr_eqb_eq, Z.eqb_eq.
  split; [intros [[-> ->] ->]; reflexivity | intros [= -> -> ->]; auto].
Qed.

Lemma vote_key_eqb_on (anon ty : pystr) (tid : Z) (r : vote_row) :
  vote_key_eqb anon ty tid r = pystr_eqb anon (v_user_anon r) && vote_on ty tid r.
Proof. unfold vote_key_eqb, vote_on. now rewrite andb_assoc. Qed.

Lemma recalc_score_sum (ty : pystr) (tid : Z) (d : db) :
  recalc_score ty tid d = sum_values (votes_on ty tid d).
Proof.
  unfold recalc_score, select_sum_votes, votes_on.
  destruct (filter (vote_on ty tid) (votes d)) as [|r rs]; [reflexivity|].
  destruct (Z.eqb_spec (sum_values (r :: rs)) 0); congruence.
Qed.

Lemma sum_values_app (l1 l2 : list vote_row) :
  sum_values (l1 ++ l2) = sum_values l1 + sum_values l2.
Proof.
  unfold sum_values. induction l1 as [|r l1 IH]; simpl; [reflexivity|].
  rewrite IH. lia.
Qed.

Lemma filter_filter {A : Type} (f g : A -> bool) (l : list A) :
  filter f (filter g l) = filter (fun x => g x && f x) l.
Proof.
  induction l as [|x l IH]; simpl; [reflexivity|].
  destruct (g x); simpl; [destruct (f x)|]; now rewrite IH.
Qed.

Lemma votes_after_replace (anon ty : pystr) (tid v : Z) (d : db) :
  votes (insert_or_replace_vote anon ty tid v d)
  = filter (fun r => negb (vote_key_eqb anon ty tid r)) (votes d)
    ++ [mk_vote (next_rowid (seq_votes d) (map v_id (votes d))) anon ty tid v].
Proof. reflexivity. Qed.

(** After the upsert the voter has one row on the target, the new one. *)
Lemma votes_of_after_replace (anon ty : pystr) (tid v : Z) (d : db) :
  votes_of anon ty tid (insert_or_replace_vote anon ty tid v d)
  = [mk_vote (next_rowid (seq_votes d) (map v_id (votes d))) anon ty tid v].
Proof.
  unfold votes_of. rewrite votes_after_replace, filter_app, filter_filter.
  rewrite filter_none by (intros r _; now destruct (vote_key_eqb anon ty tid r)).
  simpl. unfold vote_key_eqb. simpl.
  now rewrite !pystr_eqb_refl, Z.eqb_refl.
Qed.

(** The rows under any other key are the ones that were there. *)
Lemma votes_of_other_key (anon ty : pystr) (tid v : Z) (anon' ty' : pystr) (tid' : Z) (d : db) :
  (anon', ty', tid') <> (anon, ty, tid) ->
  votes_of anon' ty' tid' (insert_or_replace_vote anon ty tid v d)
  = votes_of anon' ty' tid' d.
Proof.
  intros Hne. unfold votes_of. rewrite votes_after_replace, filter_app, filter_filter.
  simpl.
  replace (vote_key_eqb anon' ty' tid' (mk_vote _ anon ty tid v)) with false.
  - rewrite app_nil_r. apply filter_ext. intros r.
    destruct (vote_key_eqb anon' ty' tid' r) eqn:E1; [|now rewrite andb_false_r].
    rewrite andb_true_r. apply negb_true_iff.
    destruct (vote_key_eqb anon ty tid r) eqn:E2; [|reflexivity].
    apply vote_key_eqb_iff in E1, E2. congruence.
  - symmetry. destruct (vote_key_eqb anon' ty' tid' _) eqn:E; [|reflexivity].
    apply vote_key_eqb_iff in E. unfold vote_key in E. simpl in E. congruence.
Qed.

(** The rows on the target after the upsert: the other voters' rows, then
    the new one. *)
Lemma votes_on_after_replace (anon ty : pystr) (tid v : Z) (d : db) :
  votes_on ty tid (insert_or_replace_vote anon ty tid v d)
  = filter (fun r => negb (pystr_eqb anon (v_user_anon r))) (votes_on ty tid d)
    ++ [mk_vote (next_rowid (seq_votes d) (map v_id (votes d))) anon ty tid v].
Proof.
  unfold votes_on. rewrite votes_after_replace, filter_app, !filter_filter.
  simpl. unfold vote_on at 2. simpl. rewrite pystr_eqb_refl, Z.eqb_refl. simpl.
  f_equal. apply filter_ext. intros r. rewrite vote_key_eqb_on.
  destruct (pystr_eqb anon (v_user_anon r)), (vote_on ty tid r); reflexivity.
Qed.

Lemma votes_update_score (s tid : Z) (d : db) : votes (update_score s tid d) = votes d.
Proof. reflexivity. Qed.

Lemma vote_valid (int_of_str : pystr -> option Z) (req : request) (d : db)
    (ty : pystr) (tid v : Z) :
  valid_vote int_of_str req ty tid v ->
  let d1 := insert_or_replace_vote (voter_identity req) ty tid v d in
  vote int_of_str req d
  = mk_outcome 204
      (if pystr_eqb ty s_post then update_score (recalc_score ty tid d1) tid d1 else d1)
      (session_anon_id req).
Proof.
  intros (kvs & Hdata & Hty & Htid & Hv & Hk & Hr & Hval) d1.
  unfold vote. rewrite Hdata. cbn [bind py_get]. rewrite Hty.
  cbn [bind]. rewrite Htid, Hv. cbn [bind].
  assert (E1 : pystr_eqb ty s_post || pystr_eqb ty s_comment = true).
  { destruct Hk as [-> | ->]; [now rewrite pystr_eqb_refl|].
    rewrite (pystr_eqb_refl s_comment). now rewrite orb_true_r. }
  assert (E2 : (tid <=? 0) = false) by (apply Z.leb_gt; lia).
  assert (E3 : (v =? -1) || (v =? 1) = true) by (destruct Hval as [-> | ->]; reflexivity).
  rewrite E1, E2, E3. cbn [negb orb].
  unfold vote_tx. rewrite bind_int_ok by (unfold min_int64; lia). cbn [bind].
  fold d1. now destruct (pystr_eqb ty s_post).
Qed.

Lemma posts_update_score (s tid : Z) (d : db) :
  posts (update_score s tid d)
  = map (fun p => if p_id p =? tid
                  then mk_post (p_id p) (p_user_id p) (p_title p) (p_body p) s (p_created_at p)
                  else p) (posts d).
Proof. reflexivity. Qed.

Lemma post_score_is_vote_sum_aux (int_of_str : pystr -> option Z) (req : request) (d : db)
    (tid v : Z) :
  valid_vote int_of_str req s_post tid v ->
  forall p, In p (posts (db_after (vote int_of_str req d))) -> p_id p = tid ->
    p_score p = sum_values (votes_on s_post tid (db_after (vote int_of_str req d))).
Proof.
  intros Hv. rewrite (vote_valid int_of_str req d s_post tid v Hv).
  rewrite pystr_eqb_refl. cbn [db_after].
  set (d1 := insert_or_replace_vote (voter_identity req) s_post tid v d).
  intros p Hin Hid. rewrite posts_update_score in Hin.
  apply in_map_iff in Hin as (q & <- & _).
  unfold votes_on. rewrite votes_update_score. fold (votes_on s_post tid d1).
  destruct (Z.eqb_spec (p_id q) tid) as [E|E]; [|contradiction].
  cbn [p_score]. apply recalc_score_sum.
Qed.

Lemma pystr_eqb_sym (a b : pystr) : pystr_eqb a b = pystr_eqb b a.
Proof.
  destruct (pystr_eqb a b) eqn:E1, (pystr_eqb b a) eqn:E2; try reflexivity.
  - apply pystr_eqb_eq in E1. apply pystr_eqb_neq in E2. congruence.
  - apply pystr_eqb_eq in E2. apply pystr_eqb_neq in E1. congruence.
Qed.

Lemma post_rows_votes_on (tid : Z) (d : db) : post_rows tid (votes d) = votes_on s_post tid d.
Proof.
  unfold post_rows, votes_on. apply filter_ext. intros r. unfold vote_on.
  now rewrite pystr_eqb_sym, Z.eqb_sym.
Qed.

Lemma vote_total_sum (l : list vote_row) : vote_total l = sum_values l.
Proof.
  unfold vote_total, sum_values. induction l as [|r l IH]; simpl; [reflexivity|].
  now rewrite IH.
Qed.

Lemma valid_vote_of_checks (int_of_str : pystr -> option Z) (req : request)
    (ty : pystr) (tid v : Z) :
  vote_passes_checks int_of_str req ty tid v -> tid <= max_int64 ->
  valid_vote int_of_str req ty tid v.
Proof.
  intros (kvs & H1 & H2 & H3 & H4 & H5 & H6 & H7) Hmax.
  exists kvs. repeat split; auto.
Qed.

Lemma vote_payload_valid (int_of_str : pystr -> option Z) (sess addr : option pystr)
    (ty : pystr) (tid v : Z) :
  ty = s_post \/ ty = s_comment -> 0 < tid <= max_int64 -> v = -1 \/ v = 1 ->
  valid_vote int_of_str (req_of sess addr (vote_payload ty tid v)) ty tid v.
Proof.
  intros Hty Htid Hv. exists (vote_payload ty tid v).
  assert (Ht : (tid =? 0) = false) by (apply Z.eqb_neq; lia).
  assert (Hz : (v =? 0) = false) by (destruct Hv as [-> | ->]; reflexivity).
  repeat split; auto; try lia.
  - unfold int_field, vote_payload. simpl. now rewrite Ht.
  - unfold int_field, vote_payload. simpl. now rewrite Hz.
Qed.

(** C8, as the code has it: a [vote] on a comment that passes the view's
    checks and whose target id fits 64 bits answers 204, records the voter's
    row under the voter's key and leaves the posts table, hence every score,
    as it was. Such a [vote] on a post changes no post but those with the
    target's id, and of those only the score, which becomes the sum of the
    values of the rows with target_type 'post' and that target_id: no row with
    target_type 'comment' enters any score. *)
Theorem comment_votes_touch_no_score (int_of_str : pystr -> option Z) (req : request)
    (d : db) (tid v : Z) :
  (vote_passes_checks int_of_str req s_comment tid v -> tid <= max_int64 ->
   status (vote int_of_str req d) = 204
   /\ (exists id, votes_of (voter_identity req) s_comment tid (db_after (vote int_of_str req d))
                  = [mk_vote id (voter_identity req) s_comment tid v])
   /\ posts (db_after (vote int_of_str req d)) = posts d)
  /\ (vote_passes_checks int_of_str req s_post tid v -> tid <= max_int64 ->
      posts (db_after (vote int_of_str req d))
      = map (fun p => if p_id p =? tid
                      then mk_post (p_id p) (p_user_id p) (p_title p) (p_body p)
                             (vote_total (post_rows tid (votes (db_after (vote int_of_str req d)))))
                             (p_created_at p)
                      else p) (posts d)).
Proof.
  split; intros Hc Hmax; pose proof (valid_vote_of_checks _ _ _ _ _ Hc Hmax) as Hv.
  - rewrite (vote_valid int_of_str req d _ tid v Hv).
    replace (pystr_eqb s_comment s_post) with false by reflexivity.
    cbn [status db_after]. repeat split.
    eexists. apply votes_of_after_replace.
  - rewrite post_rows_votes_on, vote_total_sum.
    rewrite (vote_valid int_of_str req d _ tid v Hv).
    rewrite pystr_eqb_refl. cbn [db_after].
    rewrite posts_update_score. unfold votes_on at 1. rewrite votes_update_score.
    fold (votes_on s_post tid (insert_or_replace_vote (voter_identity req) s_post tid v d)).
    now rewrite recalc_score_sum.
Qed.

Lemma comment_votes_touch_no_score_witness :
  let reqc := req_of (Some (py "alice")) None (vote_payload s_comment 1 (-1)) in
  let reqp := req_of (Some (py "alice")) None (vote_payload s_post 1 (-1)) in
  (status (vote ascii_int reqc db_busy) = 204
   /\ (exists id, votes_of (voter_identity reqc) s_comment 1
                    (db_after (vote ascii_int reqc db_busy))
                  = [mk_vote id (voter_identity reqc) s_comment 1 (-1)])
   /\ posts (db_after (vote ascii_int reqc db_busy)) = posts db_busy)
  /\ posts (db_after (vote ascii_int reqp db_busy))
     = map (fun p => if p_id p =? 1
                     then mk_post (p_id p) (p_user_id p) (p_title p) (p_body p)
                            (vote_total (post_rows 1 (votes (db_after (vote ascii_int reqp db_busy)))))
                            (p_created_at p)
                     else p) (posts db_busy).
Proof.
  intros reqc reqp.
  assert (Hc : vote_passes_checks ascii_int reqc s_comment 1 (-1)).
  { exists (vote_payload s_comment 1 (-1)). repeat split; auto; lia. }
  assert (Hp : vote_passes_checks ascii_int reqp s_post 1 (-1)).
  { exists (vote_payload s_post 1 (-1)). repeat split; auto; lia. }
  split.
  - apply (proj1 (comment_votes_touch_no_score ascii_int reqc db_busy 1 (-1)) Hc).
    unfold max_int64. lia.
  - apply (proj2 (comment_votes_touch_no_score ascii_int reqp db_busy 1 (-1)) Hp).
    unfold max_int64. lia.
Defined.

(** C8 as stated fails for a comment vote whose target id is 2^63: the
    request passes the view's checks, the adapter cannot bind the id, the
    answer is 500 and no vote row is recorded. *)
Lemma comment_vote_on_unstorable_target :
  let req := req_of (Some (py "alice")) None (vote_payload s_comment (2 ^ 63) 1) in
  vote_passes_checks ascii_int req s_comment (2 ^ 63) 1
  /\ vote ascii_int req db_one_post = mk_outcome 500 db_one_post (Some (py "alice"))
  /\ votes_of (voter_identity req) s_comment (2 ^ 63) (db_after (vote ascii_int req db_one_post))
     = [].
Proof.
  intros req. split; [|split; reflexivity].
  exists (vote_payload s_comment (2 ^ 63) 1). repeat split; auto.
Qed.

(** ** The voter's identity *)

(** C9, as the code has it: the identity under which [vote] records and
    replaces a row is the session's anon token when the session has one, else
    the caller's address when the server gives one, else the literal
    'anonymous'; a vote that is accepted replaces the rows under that
    identity's key and adds the new row with exactly that identity. *)
Theorem voter_identity_fallbacks (int_of_str : pystr -> option Z) (req : request) (d : db) :
  (forall t, session_anon_id req = Some t -> t <> [] -> voter_identity req = t)
  /\ (session_anon_id req = None \/ session_anon_id req = Some [] ->
      (forall a, remote_addr req = Some a -> a <> [] -> voter_identity req = a)
      /\ (remote_addr req = None \/ remote_addr req = Some [] ->
          voter_identity req = py "anonymous"))
  /\ (forall ty tid v, valid_vote int_of_str req ty tid v ->
      exists id,
        votes (db_after (vote int_of_str req d))
        = filter (fun r => negb (vote_key_eqb (voter_identity req) ty tid r)) (votes d)
          ++ [mk_vote id (voter_identity req) ty tid v]).
Proof.
  unfold voter_identity. repeat split.
  - intros t -> Ht. now destruct t.
  - intros a -> Ha. destruct H as [-> | ->]; now destruct a.
  - intros Hr. destruct H as [-> | ->], Hr as [-> | ->]; reflexivity.
  - intros ty tid v Hv.
    rewrite (vote_valid int_of_str req d ty tid v Hv). cbn [db_after].
    eexists. destruct (pystr_eqb ty s_post); reflexivity.
Qed.

Lemma voter_identity_fallbacks_witness :
  let req := req_of None (Some (py "10.0.0.7")) (vote_payload s_post 1 1) in
  voter_identity req = py "10.0.0.7"
  /\ exists id,
       votes (db_after (vote ascii_int req db_one_post))
       = filter (fun r => negb (vote_key_eqb (voter_identity req) s_post 1 r)) (votes db_one_post)
         ++ [mk_vote id (voter_identity req) s_post 1 1].
Proof.
  intros req.
  destruct (voter_identity_fallbacks ascii_int req db_one_post) as (_ & Ha & Hv).
  split.
  - apply Ha; [now left | reflexivity | discriminate].
  - apply Hv. apply vote_payload_valid; [now left | unfold max_int64; lia | now right].
Defined.

(** C9 as stated fails for a request with neither a session token nor a
    peer address: the row is recorded under 'anonymous', which is not the
    caller's address. *)
Lemma vote_without_session_or_address :
  let req := req_of None None (vote_payload s_post 1 1) in
  session_anon_id req = None
  /\ status (vote ascii_int req db_one_post) = 204
  /\ map v_user_anon (votes (db_after (vote ascii_int req db_one_post))) = [py "anonymous"]
  /\ remote_addr req <> Some (py "anonymous").
Proof. repeat split; discriminate. Qed.

(** ** Reachable databases *)

Lemma max_id_ge (ids : list Z) (i : Z) : In i ids -> i <= max_id ids.
Proof.
  induction ids as [|j ids IH]; simpl; [tauto|].
  intros [-> | H]; [lia | specialize (IH H); lia].
Qed.

Lemma next_rowid_fresh (seq : Z) (ids : list Z) :
  Forall (fun i => i < next_rowid seq ids) ids.
Proof.
  apply Forall_forall. intros i Hi. apply max_id_ge in Hi.
  unfold next_rowid. lia.
Qed.

Lemma StronglySorted_snoc (l : list Z) (x : Z) :
  StronglySorted Z.lt l -> Forall (fun i => i < x) l -> StronglySorted Z.lt (l ++ [x]).
Proof.
  induction l as [|y l IH]; simpl; intros Hs Hx.
  - constructor; constructor.
  - inversion Hs as [|? ? Hs' Hy]; subst.
    inversion Hx as [|? ? Hyx Hx']; subst.
    constructor; [now apply IH|].
    apply Forall_app. split; [exact Hy | now constructor].
Qed.

Lemma rowids_snoc {A : Type} (rowid : A -> Z) (l : list A) (seq : Z) (x : A) :
  rowid x = next_rowid seq (map rowid l) ->
  StronglySorted Z.lt (map rowid l) ->
  StronglySorted Z.lt (map rowid (l ++ [x])).
Proof.
  intros Hx Hs. rewrite map_app. simpl. apply StronglySorted_snoc; [exact Hs|].
  rewrite Hx. apply next_rowid_fresh.
Qed.

Lemma NoDup_snoc {A : Type} (l : list A) (x : A) :
  NoDup l -> ~ In x l -> NoDup (l ++ [x]).
Proof.
  intros Hl Hx. apply NoDup_rev in Hl.
  rewrite <- (rev_involutive (l ++ [x])). apply NoDup_rev.
  rewrite rev_app_distr. simpl. constructor; [|exact Hl].
  now rewrite <- in_rev.
Qed.

Lemma NoDup_map_filter {A B : Type} (f : A -> B) (g : A -> bool) (l : list A) :
  NoDup (map f l) -> NoDup (map f (filter g l)).
Proof.
  induction l as [|x l IH]; simpl; intros H; [constructor|].
  inversion H as [|? ? Hx Hl]; subst.
  destruct (g x); simpl; [|now apply IH].
  constructor; [|now apply IH].
  intros Hin. apply Hx. apply in_map_iff in Hin as (y & Hy & Hin).
  apply in_map_iff. exists y. split; [exact Hy|].
  now apply filter_In in Hin as [Hin _].
Qed.

Lemma db_ok_init : db_ok init_db.
Proof. constructor; simpl; constructor. Qed.

Lemma db_ok_insert_user (name anon created : pystr) (d d' : db) :
  db_ok d -> insert_user name anon created d = Ok d' -> db_ok d'.
Proof.
  intros [Hu Hp Hc Hv]. unfold insert_user.
  destruct (existsb _ (users d)); [discriminate|].
  intros [= <-]. constructor; cbn; auto.
  eapply rowids_snoc; [reflexivity | exact Hu].
Qed.

Lemma db_ok_insert_post (uid : option Z) (title body created : pystr) (d : db) :
  db_ok d -> db_ok (insert_post uid title body created d).
Proof.
  intros [Hu Hp Hc Hv]. constructor; cbn; auto.
  eapply rowids_snoc; [reflexivity | exact Hp].
Qed.

Lemma db_ok_insert_comment (pid : Z) (uid : option Z) (body created : pystr) (d : db) :
  db_ok d -> db_ok (insert_comment pid uid body created d).
Proof.
  intros [Hu Hp Hc Hv]. constructor; cbn; auto.
  eapply rowids_snoc; [reflexivity | exact Hc].
Qed.

Lemma db_ok_insert_or_replace_vote (anon ty : pystr) (tid v : Z) (d : db) :
  db_ok d -> db_ok (insert_or_replace_vote anon ty tid v d).
Proof.
  intros [Hu Hp Hc Hv]. constructor; cbn; auto.
  rewrite map_app. simpl. apply NoDup_snoc.
  - now apply NoDup_map_filter.
  - intros Hin. apply in_map_iff in Hin as (r & Hk & Hin).
    apply filter_In in Hin as [_ Hn].
    change (vote_key r = (anon, ty, tid)) in Hk.
    apply vote_key_eqb_iff in Hk. rewrite Hk in Hn. discriminate.
Qed.

Lemma db_ok_update_score (s tid : Z) (d : db) : db_ok d -> db_ok (update_score s tid d).
Proof.
  intros [Hu Hp Hc Hv]. constructor; cbn; auto.
  rewrite map_map.
  replace (map _ (posts d)) with (map p_id (posts d)); [exact Hp|].
  apply map_ext. intros p. now destruct (p_id p =? tid).
Qed.

Lemma db_ok_vote_tx (anon ty : pystr) (tid v : Z) (d d' : db) :
  db_ok d -> vote_tx anon ty tid v d = Ok d' -> db_ok d'.
Proof.
  intros Hd. unfold vote_tx. destruct (bind_int tid) as [t|]; [|discriminate].
  cbn [bind]. destruct (pystr_eqb ty s_post); intros [= <-].
  - now apply db_ok_update_score, db_ok_insert_or_replace_vote.
  - now apply db_ok_insert_or_replace_vote.
Qed.

Lemma db_ok_handle (int_of_str : pystr -> option Z) (c : call) (req : request) (e : env)
    (d : db) :
  db_ok d -> db_ok (db_after (handle int_of_str c req e d)).
Proof.
  intros Hd. destruct c; cbn [handle].
  - unfold signin.
    destruct (data <- request_data req;; text_field data (py "display_name") 30) as [name|];
      [|exact Hd].
    destruct (is_empty name); [exact Hd|].
    destruct (n <- bind_text name;; insert_user n (token e) (now e) d) as [d'|] eqn:E;
      [|exact Hd].
    cbn [db_after]. destruct (bind_text name); [|discriminate].
    cbn [bind] in E. eapply db_ok_insert_user; eauto.
  - exact Hd.
  - unfold create_post.
    destruct (data <- request_data req;; _) as [[title body]|]; [|exact Hd].
    destruct (is_empty title || is_empty body); [exact Hd|].
    destruct (t <- bind_text title;; _) as [[t b]|]; [|exact Hd].
    now apply db_ok_insert_post.
  - unfold create_comment.
    destruct (data <- request_data req;; _) as [[pid body]|]; [|exact Hd].
    destruct ((pid =? 0) || is_empty body); [exact Hd|].
    destruct (p <- bind_int pid;; _) as [[p b]|]; [|exact Hd].
    now apply db_ok_insert_comment.
  - unfold vote.
    destruct (data <- request_data req;; _) as [[[ty tid] v]|]; [|exact Hd].
    destruct ty as [[| | | |ty| |]|]; try exact Hd.
    destruct (negb _ || _ || _); [exact Hd|].
    destruct (vote_tx (voter_identity req) ty tid v d) as [d'|] eqn:E; [|exact Hd].
    eapply db_ok_vote_tx; eauto.
Qed.

Lemma reachable_db_ok (int_of_str : pystr -> option Z) (d : db) :
  reachable int_of_str d -> db_ok d.
Proof.
  induction 1 as [|c req e d _ IH]; [exact db_ok_init | now apply db_ok_handle].
Qed.

Lemma votes_of_at_most_one (d : db) (anon ty : pystr) (tid : Z) :
  NoDup (map vote_key (votes d)) -> (List.length (votes_of anon ty tid d) <= 1)%nat.
Proof.
  unfold votes_of. induction (votes d) as [|r l IH]; simpl; intros H; [lia|].
  inversion H as [|? ? Hr Hl]; subst.
  destruct (vote_key_eqb anon ty tid r) eqn:E; [|now apply IH].
  simpl. rewrite filter_none; [simpl; lia|].
  intros x Hx. destruct (vote_key_eqb anon ty tid x) eqn:Ex; [exfalso|reflexivity].
  apply Hr. apply vote_key_eqb_iff in E, Ex. rewrite E, <- Ex. now apply in_map.
Qed.

Lemma votes_after_vote (int_of_str : pystr -> option Z) (req : request) (d : db)
    (ty : pystr) (tid v : Z) :
  valid_vote int_of_str req ty tid v ->
  votes (db_after (vote int_of_str req d))
  = votes (insert_or_replace_vote (voter_identity req) ty tid v d).
Proof.
  intros Hv. rewrite (vote_valid int_of_str req d ty tid v Hv). cbn [db_after].
  now destruct (pystr_eqb ty s_post).
Qed.

Lemma votes_of_after_vote (int_of_str : pystr -> option Z) (req : request) (d : db)
    (ty : pystr) (tid v : Z) :
  valid_vote int_of_str req ty tid v ->
  exists id, votes_of (voter_identity req) ty tid (db_after (vote int_of_str req d))
             = [mk_vote id (voter_identity req) ty tid v].
Proof.
  intros Hv. unfold votes_of. rewrite (votes_after_vote _ _ _ _ _ _ Hv).
  eexists. apply votes_of_after_replace.
Qed.

Lemma votes_on_after_vote (int_of_str : pystr -> option Z) (req : request) (d : db)
    (ty : pystr) (tid v : Z) :
  valid_vote int_of_str req ty tid v ->
  exists id, votes_on ty tid (db_after (vote int_of_str req d))
             = filter (fun r => negb (pystr_eqb (voter_identity req) (v_user_anon r)))
                 (votes_on ty tid d)
               ++ [mk_vote id (voter_identity req) ty tid v].
Proof.
  intros Hv. unfold votes_on at 1. rewrite (votes_after_vote _ _ _ _ _ _ Hv).
  eexists. apply votes_on_after_replace.
Qed.

Lemma voters_distinct_on_target (ty : pystr) (tid : Z) (l : list vote_row) :
  NoDup (map vote_key l) -> NoDup (map v_user_anon (filter (vote_on ty tid) l)).
Proof.
  induction l as [|r l IH]; simpl; intros H; [constructor|].
  inversion H as [|? ? Hr Hl]; subst.
  destruct (vote_on ty tid r) eqn:E; simpl; [|now apply IH].
  constructor; [|now apply IH].
  intros Hin. apply in_map_iff in Hin as (x & Hx & Hin).
  apply filter_In in Hin as [Hin Ex].
  apply Hr. apply in_map_iff. exists x. split; [|exact Hin].
  unfold vote_on in E, Ex.
  apply andb_true_iff in E as [E1 E2]. apply andb_true_iff in Ex as [X1 X2].
  apply pystr_eqb_eq in E1, X1. apply Z.eqb_eq in E2, X2.
  unfold vote_key. congruence.
Qed.

(** C1: for every post and every [vote] that passes the view's checks and
    names it as a target of type 'post', the answer is 204 and afterwards the
    post is still there, every other column as before, with a score equal to
    the sum of the values of exactly the vote rows with target_type 'post'
    and its id. Those rows are the other voters' rows as they were, followed
    by one row of the voter with the value just cast; in a reachable database
    no two of them have the same voter identity. With no such row the
    recalculation gives 0. (The id of a stored post is a 64-bit integer.) *)
Theorem post_score_is_vote_sum (int_of_str : pystr -> option Z) (req : request) (d : db)
    (tid v : Z) (p0 : post_row) :
  vote_passes_checks int_of_str req s_post tid v ->
  In p0 (posts d) -> p_id p0 = tid -> p_id p0 <= max_int64 ->
  status (vote int_of_str req d) = 204
  /\ map p_id (posts (db_after (vote int_of_str req d))) = map p_id (posts d)
  /\ (forall p, In p (posts (db_after (vote int_of_str req d))) -> p_id p = tid ->
      p_score p = vote_total (post_rows tid (votes (db_after (vote int_of_str req d)))))
  /\ In (mk_post (p_id p0) (p_user_id p0) (p_title p0) (p_body p0)
           (vote_total (post_rows tid (votes (db_after (vote int_of_str req d)))))
           (p_created_at p0))
        (posts (db_after (vote int_of_str req d)))
  /\ (exists id,
        post_rows tid (votes (db_after (vote int_of_str req d)))
        = filter (fun r => negb (pystr_eqb (v_user_anon r) (voter_identity req)))
            (post_rows tid (votes d))
          ++ [mk_vote id (voter_identity req) s_post tid v])
  /\ (reachable int_of_str d ->
      NoDup (map v_user_anon (post_rows tid (votes (db_after (vote int_of_str req d))))))
  /\ (forall d1, post_rows tid (votes d1) = [] -> recalc_score s_post tid d1 = 0).
Proof.
  intros Hc Hin0 Hid Hmax.
  assert (Hv : valid_vote int_of_str req s_post tid v).
  { apply valid_vote_of_checks; [exact Hc | now rewrite <- Hid]. }
  rewrite !post_rows_votes_on, !vote_total_sum.
  split; [now rewrite (vote_valid int_of_str req d s_post tid v Hv)|].
  split.
  { rewrite (vote_valid int_of_str req d s_post tid v Hv).
    rewrite pystr_eqb_refl. cbn [db_after].
    rewrite posts_update_score, map_map. apply map_ext.
    intros p. now destruct (p_id p =? tid). }
  split; [exact (post_score_is_vote_sum_aux int_of_str req d tid v Hv)|].
  split.
  { assert (Hs : sum_values (votes_on s_post tid (db_after (vote int_of_str req d)))
                 = recalc_score s_post tid
                     (insert_or_replace_vote (voter_identity req) s_post tid v d)).
    { rewrite recalc_score_sum. unfold votes_on.
      now rewrite (votes_after_vote _ _ _ _ _ _ Hv). }
    rewrite Hs. rewrite (vote_valid int_of_str req d s_post tid v Hv).
    rewrite pystr_eqb_refl. cbn [db_after]. rewrite posts_update_score.
    apply in_map_iff. exists p0. split; [|exact Hin0].
    now rewrite (proj2 (Z.eqb_eq _ _) Hid). }
  split.
  { destruct (votes_on_after_vote int_of_str req d s_post tid v Hv) as [id Hrows].
    exists id. rewrite Hrows. f_equal. apply filter_ext.
    intros r. now rewrite pystr_eqb_sym. }
  split.
  { intros Hr.
    assert (Hr' : reachable int_of_str (db_after (vote int_of_str req d))).
    { exact (reach_step int_of_str Vote req (mk_env [] []) d Hr). }
    apply voters_distinct_on_target.
    apply (votes_unique _ (reachable_db_ok _ _ Hr')). }
  intros d1 H1. rewrite post_rows_votes_on in H1. now rewrite recalc_score_sum, H1.
Qed.

Lemma post_score_is_vote_sum_witness :
  let req := req_of None (Some (py "10.0.0.8")) (vote_payload s_post 1 1) in
  let p0 := mk_post 1 (Some 1) (py "one") (py "b1") 1 (py "2024-01-01T10:00:00") in
  let d' := db_after (vote ascii_int req db_busy) in
  status (vote ascii_int req db_busy) = 204
  /\ map p_id (posts d') = map p_id (posts db_busy)
  /\ (forall p, In p (posts d') -> p_id p = 1 ->
      p_score p = vote_total (post_rows 1 (votes d')))
  /\ In (mk_post (p_id p0) (p_user_id p0) (p_title p0) (p_body p0)
           (vote_total (post_rows 1 (votes d'))) (p_created_at p0))
        (posts d')
  /\ (exists id,
        post_rows 1 (votes d')
        = filter (fun r => negb (pystr_eqb (v_user_anon r) (voter_identity req)))
            (post_rows 1 (votes db_busy))
          ++ [mk_vote id (voter_identity req) s_post 1 1])
  /\ (reachable ascii_int db_busy -> NoDup (map v_user_anon (post_rows 1 (votes d'))))
  /\ (forall d1, post_rows 1 (votes d1) = [] -> recalc_score s_post 1 d1 = 0).
Proof.
  intros req p0 d'.
  apply (post_score_is_vote_sum ascii_int req db_busy 1 1 p0).
  - exists (vote_payload s_post 1 1). repeat split; auto.
  - vm_compute. left. reflexivity.
  - reflexivity.
  - vm_compute. discriminate.
Defined.

Example run_changed_vote :
  let req := req_of None (Some (py "10.0.0.8")) (vote_payload s_post 1 1) in
  map v_value (post_rows 1 (votes db_busy)) = [1; 1; -1]
  /\ map v_value (post_rows 1 (votes (db_after (vote ascii_int req db_busy)))) = [1; 1; 1]
  /\ map p_score (posts (db_after (vote ascii_int req db_busy))) = [3; 0].
Proof. repeat split; reflexivity. Qed.

(** C2: in every reachable database a voter has at most one vote row on a
    target. A valid [vote] leaves the voter with exactly one row on the
    target, holding the value just cast, and leaves the rows under every other
    key alone. Casting +1 and then -1 leaves one row with value -1, and on a
    post the score is the other voters' sum plus that -1. *)
Theorem one_vote_per_identity_and_target (int_of_str : pystr -> option Z) (d : db) :
  reachable int_of_str d ->
  (forall anon ty tid, (List.length (votes_of anon ty tid d) <= 1)%nat)
  /\ (forall req ty tid v,
        valid_vote int_of_str req ty tid v ->
        (exists id, votes_of (voter_identity req) ty tid (db_after (vote int_of_str req d))
                    = [mk_vote id (voter_identity req) ty tid v])
        /\ (forall anon' ty' tid',
              (anon', ty', tid') <> (voter_identity req, ty, tid) ->
              votes_of anon' ty' tid' (db_after (vote int_of_str req d))
              = votes_of anon' ty' tid' d))
  /\ (forall req1 req2 ty tid,
        voter_identity req2 = voter_identity req1 ->
        valid_vote int_of_str req1 ty tid 1 ->
        valid_vote int_of_str req2 ty tid (-1) ->
        let d2 := db_after (vote int_of_str req2 (db_after (vote int_of_str req1 d))) in
        (exists id, votes_of (voter_identity req1) ty tid d2
                    = [mk_vote id (voter_identity req1) ty tid (-1)])
        /\ (ty = s_post ->
            forall p, In p (posts d2) -> p_id p = tid ->
              p_score p
              = sum_values
                  (filter (fun r => negb (pystr_eqb (voter_identity req1) (v_user_anon r)))
                     (votes_on s_post tid d))
                + -1)).
Proof.
  intros Hr. split; [|split].
  - intros anon ty tid. apply votes_of_at_most_one.
    apply (votes_unique _ (reachable_db_ok _ _ Hr)).
  - intros req ty tid v Hv. split; [now apply votes_of_after_vote|].
    intros anon' ty' tid' Hne. unfold votes_of at 1.
    rewrite (votes_after_vote _ _ _ _ _ _ Hv).
    now apply votes_of_other_key.
  - intros req1 req2 ty tid Hid Hv1 Hv2 d2. split.
    + rewrite <- Hid. now apply votes_of_after_vote.
    + intros -> p Hin Hp.
      rewrite (post_score_is_vote_sum_aux int_of_str req2
                 (db_after (vote int_of_str req1 d)) tid (-1) Hv2 p Hin Hp).
      destruct (votes_on_after_vote _ req2 (db_after (vote int_of_str req1 d)) _ _ _ Hv2)
        as [id2 ->].
      destruct (votes_on_after_vote _ req1 d _ _ _ Hv1) as [id1 ->].
      rewrite Hid, filter_app, filter_filter, sum_values_app. simpl.
      rewrite pystr_eqb_refl. simpl. rewrite app_nil_r.
      f_equal. f_equal. apply filter_ext. intros r.
      now destruct (pystr_eqb (voter_identity req1) (v_user_anon r)).
Qed.

Lemma one_vote_per_identity_and_target_witness :
  let up := req_of (Some (py "alice")) None (vote_payload s_post 1 1) in
  let down := req_of (Some (py "alice")) None (vote_payload s_post 1 (-1)) in
  let d2 := db_after (vote ascii_int down (db_after (vote ascii_int up db_one_post))) in
  (exists id, votes_of (voter_identity up) s_post 1 d2
              = [mk_vote id (voter_identity up) s_post 1 (-1)])
  /\ (s_post = s_post ->
      forall p, In p (posts d2) -> p_id p = 1 ->
        p_score p
        = sum_values
            (filter (fun r => negb (pystr_eqb (voter_identity up) (v_user_anon r)))
               (votes_on s_post 1 db_one_post))
          + -1).
Proof.
  intros up down d2.
  assert (Hr : reachable ascii_int db_one_post).
  { exact (reach_step ascii_int CreatePost
             (req_of None None [(py "title", JStr (py "t")); (py "body", JStr (py "b"))])
             env0 init_db (reach_init _)). }
  destruct (one_vote_per_identity_and_target ascii_int db_one_post Hr) as (_ & _ & H).
  apply (H up down s_post 1 eq_refl);
    apply vote_payload_valid; auto; unfold max_int64; lia.
Defined.

(** ** Order of the listing *)

Lemma created_asc_total {A : Type} (created : A -> pystr) (a b : A) :
  created_asc created a b = true \/ created_asc created b a = true.
Proof. apply str_leb_total. Qed.

Lemma created_asc_trans {A : Type} (created : A -> pystr) (a b c : A) :
  created_asc created a b = true -> created_asc created b c = true ->
  created_asc created a c = true.
Proof. apply str_leb_trans. Qed.

Lemma created_desc_total {A : Type} (created : A -> pystr) (a b : A) :
  created_desc created a b = true \/ created_desc created b a = true.
Proof. apply str_leb_total. Qed.

Lemma created_desc_trans {A : Type} (created : A -> pystr) (a b c : A) :
  created_desc created a b = true -> created_desc created b c = true ->
  created_desc created a c = true.
Proof. unfold created_desc. intros H1 H2. eapply str_leb_trans; eauto. Qed.

Lemma filter_rowid_at_most_one (us : list user_row) (i : Z) :
  StronglySorted Z.lt (map u_id us) ->
  (List.length (filter (fun u => (i =? u_id u)%Z) us) <= 1)%nat.
Proof.
  induction us as [|u us IH]; simpl; intros Hs; [lia|].
  inversion Hs as [|? ? Hs' Hu]; subst.
  destruct (Z.eqb_spec i (u_id u)) as [E|E]; [|now apply IH].
  simpl. rewrite filter_none; [simpl; lia|].
  intros x Hx. apply Z.eqb_neq. rewrite Forall_forall in Hu.
  specialize (Hu (u_id x) (in_map u_id _ _ Hx)). lia.
Qed.

Lemma map_fst_left_join {A : Type} (uid : A -> option Z) (us : list user_row) (l : list A) :
  StronglySorted Z.lt (map u_id us) ->
  map fst (left_join_users uid us l) = l.
Proof.
  intros Hs. unfold left_join_users.
  induction l as [|r l IH]; [reflexivity|].
  cbn [flat_map]. rewrite map_app, IH. clear IH.
  destruct (uid r) as [i|]; [|reflexivity].
  pose proof (filter_rowid_at_most_one us i Hs) as Hlen.
  destruct (filter (fun u => i =? u_id u) us) as [|u [|u' ms]]; simpl in *;
    [reflexivity | reflexivity | lia].
Qed.

Lemma StronglySorted_map_impl {A B : Type} (R : A -> A -> Prop) (R' : B -> B -> Prop)
    (f : A -> B) (l : list A) :
  (forall a b, R a b -> R' (f a) (f b)) ->
  StronglySorted R l -> StronglySorted R' (map f l).
Proof.
  intros HR. induction 1 as [|a l Hs IH Ha]; simpl; constructor; [exact IH|].
  rewrite Forall_map. rewrite Forall_forall in *. auto.
Qed.

Lemma rowids_filter {A : Type} (rowid : A -> Z) (g : A -> bool) (l : list A) :
  StronglySorted Z.lt (map rowid l) -> StronglySorted Z.lt (map rowid (filter g l)).
Proof.
  induction l as [|x l IH]; simpl; intros Hs; [constructor|].
  inversion Hs as [|? ? Hs' Hx]; subst.
  destruct (g x); simpl; [|now apply IH].
  constructor; [now apply IH|].
  rewrite Forall_map in *. rewrite Forall_forall in *.
  intros y Hy. apply Hx. now apply filter_In in Hy as [Hy _].
Qed.

Lemma order_by_snoc_first {A : Type} (leb : A -> A -> bool) (l : list A) (x : A) :
  (forall y, In y l -> leb y x = false) ->
  order_by leb (l ++ [x]) = x :: order_by leb l.
Proof.
  induction l as [|y l IH]; intros H; simpl; [reflexivity|].
  rewrite IH by (intros z Hz; apply H; now right).
  simpl. now rewrite (H y) by now left.
Qed.

Lemma map_filter_fst {A B : Type} (g : A -> bool) (l : list (A * B)) :
  map fst (filter (fun x => g (fst x)) l) = filter g (map fst l).
Proof.
  induction l as [|x l IH]; simpl; [reflexivity|].
  destruct (g (fst x)); simpl; now rewrite IH.
Qed.

Lemma posts_api_sorted (d : db) : db_ok d -> StronglySorted post_before (posts_api d).
Proof.
  intros Hd. unfold posts_api.
  apply (StronglySorted_map_impl
           (listed_before
              (created_desc (fun pu : post_row * option pystr => p_created_at (fst pu)))
              (fun pu => p_id (fst pu)))).
  - intros [p dn] [q dm] H. exact H.
  - apply order_by_listed.
    + intros a b. apply created_desc_total.
    + intros a b c. apply created_desc_trans.
    + rewrite <- (map_map fst p_id), map_fst_left_join; [apply Hd | apply Hd].
Qed.

Lemma select_comments_sorted (d : db) (pid : Z) :
  db_ok d -> StronglySorted comment_before (select_comments pid d).
Proof.
  intros Hd. unfold select_comments.
  apply (StronglySorted_map_impl
           (listed_before
              (created_asc (fun cu : comment_row * option pystr => c_created_at (fst cu)))
              (fun cu => c_id (fst cu)))).
  - intros [c dn] [c' dm] H. exact H.
  - apply order_by_listed.
    + intros a b. apply created_asc_total.
    + intros a b c. apply created_asc_trans.
    + apply rowids_filter.
      rewrite <- (map_map fst c_id), map_fst_left_join; [apply Hd | apply Hd].
Qed.

Lemma select_comments_rows (d : db) (pid : Z) :
  db_ok d ->
  Permutation (map cv_row (select_comments pid d))
              (filter (fun c => c_post_id c =? pid) (comments d)).
Proof.
  intros Hd. unfold select_comments. rewrite map_map.
  erewrite map_ext with (g := fst) by (intros [[] dn]; reflexivity).
  rewrite order_by_perm.
  rewrite (map_filter_fst (fun c => c_post_id c =? pid)).
  rewrite map_fst_left_join by apply Hd. reflexivity.
Qed.

Lemma left_join_app {A : Type} (uid : A -> option Z) (us : list user_row) (l1 l2 : list A) :
  left_join_users uid us (l1 ++ l2)
  = left_join_users uid us l1 ++ left_join_users uid us l2.
Proof. unfold left_join_users. apply flat_map_app. Qed.

Lemma posts_api_after_newest_post (d : db) (uid : option Z) (title body created : pystr) :
  db_ok d ->
  (forall p, In p (posts d) -> str_ltb (p_created_at p) created = true) ->
  exists pv,
    posts_api (insert_post uid title body created d) = pv :: posts_api d
    /\ pv_id pv = next_rowid (seq_posts d) (map p_id (posts d))
    /\ pv_title pv = title /\ pv_body pv = body /\ pv_score pv = 0
    /\ pv_created_at pv = created.
Proof.
  intros Hd Hnew.
  set (new := mk_post (next_rowid (seq_posts d) (map p_id (posts d))) uid title body 0 created).
  assert (Hone : exists dn, left_join_users p_user_id (users d) [new] = [(new, dn)]).
  { pose proof (map_fst_left_join p_user_id (users d) [new] (users_rowids _ Hd)) as Hm.
    destruct (left_join_users p_user_id (users d) [new]) as [|[q dn] [|x rest]];
      try discriminate.
    injection Hm as ->. now exists dn. }
  destruct Hone as [dn Hone].
  exists (mk_post_view (p_id new) title body 0 created dn
            (select_comments (p_id new) d)).
  split; [|repeat split].
  unfold posts_api, insert_post. cbn [users posts].
  fold new. rewrite left_join_app, Hone, order_by_snoc_first.
  - reflexivity.
  - intros y Hy. apply left_join_fst in Hy.
    unfold created_desc. cbn [fst p_created_at]. apply str_ltb_leb. now apply Hnew.
Qed.

(** C4, as the code has it: [posts_api] lists the posts of a reachable
    database by [created_at] descending, and posts with the same [created_at]
    by ascending id; a post created with a [created_at] strictly later than
    that of every stored post is first in the next listing, before the
    previous listing. *)
Theorem posts_listed_newest_first (int_of_str : pystr -> option Z) (d : db) :
  reachable int_of_str d ->
  StronglySorted post_before (posts_api d)
  /\ (forall req e kvs t b,
        request_data req = Ok (JDict kvs) ->
        assoc (py "title") kvs = Some (JStr t) ->
        assoc (py "body") kvs = Some (JStr b) ->
        strip t <> [] -> strip b <> [] ->
        encodable (slice_to 200 (strip t)) -> encodable (slice_to 4000 (strip b)) ->
        (forall p, In p (posts d) -> str_ltb (p_created_at p) (now e) = true) ->
        exists pv,
          posts_api (db_after (create_post req e d)) = pv :: posts_api d
          /\ pv_title pv = slice_to 200 (strip t)
          /\ pv_body pv = slice_to 4000 (strip b)
          /\ pv_created_at pv = now e).
Proof.
  intros Hr. pose proof (reachable_db_ok _ _ Hr) as Hd.
  split; [now apply posts_api_sorted|].
  intros req e kvs t b Hdata Ht Hb Hnt Hnb Het Heb Hnew.
  rewrite (create_post_ok req e d kvs t b) by assumption. cbn [db_after].
  destruct (posts_api_after_newest_post d (option_map u_id (current_user req d))
              (slice_to 200 (strip t)) (slice_to 4000 (strip b)) (now e) Hd Hnew)
    as (pv & Heq & _ & Htitle & Hbody & _ & Hcreated).
  exists pv. auto.
Qed.

Lemma posts_listed_newest_first_witness :
  let kvs := [(py "title", JStr (py "second")); (py "body", JStr (py "b2"))] in
  StronglySorted post_before (posts_api db_one_post)
  /\ exists pv,
       posts_api (db_after (create_post (req_of None None kvs) env1 db_one_post))
       = pv :: posts_api db_one_post
       /\ pv_title pv = slice_to 200 (strip (py "second"))
       /\ pv_body pv = slice_to 4000 (strip (py "b2"))
       /\ pv_created_at pv = now env1.
Proof.
  intros kvs.
  assert (Hr : reachable ascii_int db_one_post).
  { exact (reach_step ascii_int CreatePost
             (req_of None None [(py "title", JStr (py "t")); (py "body", JStr (py "b"))])
             env0 init_db (reach_init _)). }
  destruct (posts_listed_newest_first ascii_int db_one_post Hr) as (Hs & Hn).
  split; [exact Hs|].
  apply (Hn (req_of None None kvs) env1 kvs (py "second") (py "b2") eq_refl eq_refl eq_refl);
    try discriminate; try reflexivity.
  intros p [<- | []]. reflexivity.
Defined.

(** C4 as stated fails when two posts carry the same [created_at] (two
    requests within one tick of the clock): the older post, with the smaller
    id, is listed first, and the post just inserted is not at the front. *)
Lemma posts_with_equal_created_at :
  let d2 := db_after (create_post
                        (req_of None None [(py "title", JStr (py "second"));
                                           (py "body", JStr (py "b2"))])
                        env0 db_one_post) in
  map p_id (posts d2) = [1; 2]
  /\ map pv_created_at (posts_api d2) = [now env0; now env0]
  /\ map pv_id (posts_api d2) = [1; 2]
  /\ ~ StronglySorted post_before_id_desc (posts_api d2).
Proof.
  repeat split; try reflexivity.
  intros H. inversion H as [|? ? _ Hf]; subst.
  inversion Hf as [|? ? [_ Hlt] _]; subst.
  specialize (Hlt eq_refl). discriminate Hlt.
Qed.

(** C5: in the listing of a reachable database the comments attached to a
    post are exactly the comment rows whose [post_id] is the post's id, each
    once, by [created_at] ascending and, for equal [created_at], by ascending
    id, whatever the order in which comments on different posts arrived. *)
Theorem comments_listed_oldest_first (int_of_str : pystr -> option Z) (d : db) :
  reachable int_of_str d ->
  forall pv, In pv (posts_api d) ->
    Permutation (map cv_row (pv_comments pv))
                (filter (fun c => c_post_id c =? pv_id pv) (comments d))
    /\ StronglySorted comment_before (pv_comments pv).
Proof.
  intros Hr pv Hin. pose proof (reachable_db_ok _ _ Hr) as Hd.
  unfold posts_api in Hin. apply in_map_iff in Hin as ([p dn] & <- & _).
  cbn [pv_comments pv_id]. split.
  - now apply select_comments_rows.
  - now apply select_comments_sorted.
Qed.

Lemma reachable_run (int_of_str : pystr -> option Z) (steps : list (call * request * env))
    (d : db) :
  reachable int_of_str d -> reachable int_of_str (run int_of_str steps d).
Proof.
  revert d. induction steps as [|[[c req] e] steps IH]; intros d Hd; [exact Hd|].
  apply IH. now constructor.
Qed.

Example run_two_threads :
  map (fun pv => (pv_id pv, map cv_id (pv_comments pv))) (posts_api db_two_threads)
  = [(2, [2]); (1, [4; 1; 3])].
Proof. reflexivity. Qed.

Lemma comments_listed_oldest_first_witness :
  Forall (fun pv =>
            Permutation (map cv_row (pv_comments pv))
                        (filter (fun c => c_post_id c =? pv_id pv) (comments db_two_threads))
            /\ StronglySorted comment_before (pv_comments pv))
         (posts_api db_two_threads).
Proof.
  apply Forall_forall.
  apply (comments_listed_oldest_first ascii_int db_two_threads).
  apply reachable_run. constructor.
Defined.

(** * Further properties of the views *)

(** ** What a request writes *)

Lemma lstrip_suffix (s : pystr) : exists pre, s = pre ++ lstrip s.
Proof.
  induction s as [|c s [pre IH]]; simpl.
  - now exists [].
  - destruct (isspace c); [|now exists []].
    exists (c :: pre). simpl. now f_equal.
Qed.

Lemma strip_head (s : pystr) (c : N) (r : pystr) : strip s = c :: r -> isspace c = false.
Proof.
  unfold strip, rstrip. intros H.
  destruct (lstrip_suffix (rev (lstrip s))) as [pre Hpre].
  apply (f_equal (@rev N)) in Hpre. rewrite rev_involutive, rev_app_distr, H in Hpre.
  simpl in Hpre. now apply lstrip_head in Hpre.
Qed.

Lemma stored_text_slice (n : nat) (s : pystr) :
  is_empty (slice_to n (strip s)) = false -> stored_text n (slice_to n (strip s)).
Proof.
  intros He. unfold stored_text, slice_to in *. repeat split.
  - intros E. now rewrite E in He.
  - rewrite length_firstn. lia.
  - intros c r E. destruct n; [discriminate|].
    destruct (strip s) as [|c' r'] eqn:Es; [discriminate|].
    simpl in E. injection E as <- _. now apply strip_head in Es.
Qed.

Lemma text_field_stored (data : json) (k : pystr) (n : nat) (s : pystr) :
  text_field data k n = Ok s -> is_empty s = false -> stored_text n s.
Proof.
  unfold text_field, py_get, py_strip.
  destruct data; simpl; try discriminate.
  destruct (py_or (assoc k kvs) (JStr [])); simpl; try discriminate.
  intros [= <-]. apply stored_text_slice.
Qed.

Lemma bind_text_inv (s t : pystr) : bind_text s = Ok t -> t = s.
Proof. unfold bind_text. destruct (existsb is_surrogate s); congruence. Qed.

Lemma bind_int_inv (z t : Z) : bind_int z = Ok t -> t = z /\ min_int64 <= z <= max_int64.
Proof.
  unfold bind_int.
  destruct (Z.leb_spec min_int64 z), (Z.leb_spec z max_int64); simpl; try discriminate.
  intros [= <-]. lia.
Qed.

Lemma vote_tx_voted (anon ty : pystr) (tid v : Z) (d d' : db) :
  vote_tx anon ty tid v d = Ok d' ->
  d' = voted anon ty tid v d /\ min_int64 <= tid <= max_int64.
Proof.
  unfold vote_tx, voted. destruct (bind_int tid) as [t|] eqn:E; [|discriminate].
  apply bind_int_inv in E as [-> Hr]. cbn [bind].
  destruct (pystr_eqb ty s_post); intros [= <-]; auto.
Qed.

Lemma handle_written (int_of_str : pystr -> option Z) (c : call) (req : request) (e : env)
    (d : db) :
  written e d (db_after (handle int_of_str c req e d)).
Proof.
  destruct c; cbn [handle].
  - unfold signin.
    destruct (data <- request_data req;; text_field data (py "display_name") 30)
      as [name|] eqn:E; [|constructor].
    destruct (is_empty name) eqn:En; [constructor|].
    destruct (bind_text name) as [n|] eqn:Eb; [|constructor].
    apply bind_text_inv in Eb as ->. cbn [bind].
    destruct (insert_user name (token e) (now e) d) as [d'|] eqn:Ei; [|constructor].
    cbn [db_after]. apply (w_user e d name d'); [|exact Ei].
    destruct (request_data req) as [data|]; [|discriminate].
    cbn [bind] in E. eapply text_field_stored; eauto.
  - constructor.
  - unfold create_post.
    destruct (request_data req) as [data|]; [|constructor]. cbn [bind].
    destruct (text_field data (py "title") 200) as [title|] eqn:Et; [|constructor].
    cbn [bind].
    destruct (text_field data (py "body") 4000) as [body|] eqn:Eb; [|constructor].
    cbn [bind].
    destruct (is_empty title) eqn:E1; [constructor|].
    destruct (is_empty body) eqn:E2; [constructor|]. cbn [orb].
    destruct (bind_text title) as [t|] eqn:Bt; [|constructor].
    apply bind_text_inv in Bt as ->. cbn [bind].
    destruct (bind_text body) as [b|] eqn:Bb; [|constructor].
    apply bind_text_inv in Bb as ->. cbn [bind db_after].
    constructor; eapply text_field_stored; eauto.
  - unfold create_comment.
    destruct (request_data req) as [data|]; [|constructor]. cbn [bind].
    destruct (int_field int_of_str data (py "post_id")) as [pid|]; [|constructor].
    cbn [bind].
    destruct (text_field data (py "body") 1000) as [body|] eqn:Eb; [|constructor].
    cbn [bind].
    destruct (Z.eqb_spec pid 0) as [E0|E0]; [constructor|].
    destruct (is_empty body) eqn:E2; [constructor|]. cbn [orb].
    destruct (bind_int pid) as [p|] eqn:Bp; [|constructor].
    apply bind_int_inv in Bp as [-> Hr]. cbn [bind].
    destruct (bind_text body) as [b|] eqn:Bb; [|constructor].
    apply bind_text_inv in Bb as ->. cbn [bind db_after].
    constructor; auto. eapply text_field_stored; eauto.
  - unfold vote.
    destruct (data <- request_data req;; _) as [[[ty tid] v]|]; [|constructor].
    destruct ty as [[| | | |ty| |]|]; try constructor.
    destruct (pystr_eqb ty s_post || pystr_eqb ty s_comment) eqn:Ety; [|constructor].
    destruct (Z.leb_spec tid 0) as [Ht|Ht]; [constructor|].
    destruct ((v =? -1) || (v =? 1)) eqn:Ev; [|constructor].
    cbn [negb orb].
    destruct (vote_tx (voter_identity req) ty tid v d) as [d'|] eqn:E; [|constructor].
    apply vote_tx_voted in E as [-> Hr]. cbn [db_after].
    constructor.
    + apply orb_true_iff in Ety as [E|E]; apply pystr_eqb_eq in E; auto.
    + lia.
    + apply orb_true_iff in Ev as [E|E]; apply Z.eqb_eq in E; auto.
Qed.

Lemma reachable_db_busy : reachable ascii_int db_busy.
Proof. apply reachable_run. constructor. Qed.

Lemma reachable_db_two_threads : reachable ascii_int db_two_threads.
Proof. apply reachable_run. constructor. Qed.

Example run_busy :
  map (fun pv => (pv_id pv, pv_score pv, pv_display_name pv)) (posts_api db_busy)
  = [(2, 0, None); (1, 1, Some (py "fox99"))]
  /\ map vote_content (votes db_busy)
     = [(py "tok-AAAAAAAAAAAA", s_post, 1, 1); (py "10.0.0.7", s_post, 1, 1);
        (py "10.0.0.8", s_post, 1, -1); (py "10.0.0.8", s_comment, 1, -1)].
Proof. split; reflexivity. Qed.

Lemma post_content_update_score (s tid : Z) (d : db) :
  map post_content (posts (update_score s tid d)) = map post_content (posts d).
Proof.
  rewrite posts_update_score, map_map. apply map_ext.
  intros p. now destruct (p_id p =? tid).
Qed.

Lemma posts_voted (anon ty : pystr) (tid v : Z) (d : db) :
  map post_content (posts (voted anon ty tid v d)) = map post_content (posts d).
Proof.
  unfold voted. destruct (pystr_eqb ty s_post); [|reflexivity].
  now rewrite post_content_update_score.
Qed.

Lemma users_voted (anon ty : pystr) (tid v : Z) (d : db) :
  users (voted anon ty tid v d) = users d.
Proof. unfold voted. now destruct (pystr_eqb ty s_post). Qed.

Lemma comments_voted (anon ty : pystr) (tid v : Z) (d : db) :
  comments (voted anon ty tid v d) = comments d.
Proof. unfold voted. now destruct (pystr_eqb ty s_post). Qed.

Lemma votes_voted (anon ty : pystr) (tid v : Z) (d : db) :
  votes (voted anon ty tid v d) = votes (insert_or_replace_vote anon ty tid v d).
Proof. unfold voted. now destruct (pystr_eqb ty s_post). Qed.

Lemma insert_user_inv (name anon created : pystr) (d d' : db) :
  insert_user name anon created d = Ok d' ->
  (forall u, In u (users d) -> u_anon_id u <> anon)
  /\ d' = mk_db (users d ++ [mk_user (next_rowid (seq_users d) (map u_id (users d)))
                               name anon created])
                (posts d) (comments d) (votes d)
                (next_rowid (seq_users d) (map u_id (users d)))
                (seq_posts d) (seq_comments d) (seq_votes d).
Proof.
  unfold insert_user.
  destruct (existsb _ (users d)) eqn:E; [discriminate|].
  intros [= <-]. split; [|reflexivity].
  intros u Hu Heq.
  assert (existsb (fun u0 => pystr_eqb anon (u_anon_id u0)) (users d) = true).
  { apply existsb_exists. exists u. split; [exact Hu|]. now apply pystr_eqb_eq. }
  congruence.
Qed.

(** X1: whatever the request, a view appends at most one row to one of
    users, posts and comments; it never deletes or rewrites a user or a
    comment, and of a post it rewrites nothing but the score. *)
Theorem tables_are_append_only (int_of_str : pystr -> option Z) (c : call) (req : request)
    (e : env) (d : db) :
  exists us ps cs,
    users (db_after (handle int_of_str c req e d)) = users d ++ us
    /\ map post_content (posts (db_after (handle int_of_str c req e d)))
       = map post_content (posts d) ++ map post_content ps
    /\ comments (db_after (handle int_of_str c req e d)) = comments d ++ cs
    /\ (List.length us + List.length ps + List.length cs <= 1)%nat.
Proof.
  destruct (handle_written int_of_str c req e d)
    as [|name d' Hn Hi|uid t b Ht Hb|pid uid b Hp Hr Hb|anon ty tid v Hty Htid Hv].
  - exists [], [], []. rewrite !app_nil_r. simpl. auto.
  - apply insert_user_inv in Hi as [_ ->].
    eexists [_], [], []. cbn [users posts comments]. rewrite !app_nil_r. simpl. auto.
  - eexists [], [_], []. cbn [insert_post users posts comments].
    rewrite map_app, !app_nil_r. simpl. auto.
  - eexists [], [], [_]. cbn [insert_comment users posts comments].
    rewrite !app_nil_r. simpl. auto.
  - exists [], [], []. rewrite users_voted, posts_voted, comments_voted, !app_nil_r.
    simpl. auto.
Qed.

(** ** Invariants of the reachable databases *)

Lemma reachable_written_ind (int_of_str : pystr -> option Z) (P : db -> Prop) :
  P init_db ->
  (forall e d d', db_ok d -> P d -> written e d d' -> P d') ->
  forall d, reachable int_of_str d -> P d.
Proof.
  intros H0 Hstep d Hr. induction Hr as [|c req e d Hr IH]; [exact H0|].
  apply (Hstep e d); [now apply (reachable_db_ok int_of_str) | exact IH |].
  apply handle_written.
Qed.

Lemma max_id_nonneg (ids : list Z) : 0 <= max_id ids.
Proof. induction ids as [|i ids IH]; simpl; lia. Qed.

Lemma next_rowid_pos (seq : Z) (ids : list Z) : 0 < next_rowid seq ids.
Proof. pose proof (max_id_nonneg ids). unfold next_rowid. lia. Qed.

Lemma Forall_snoc {A : Type} (P : A -> Prop) (l : list A) (x : A) :
  Forall P l -> P x -> Forall P (l ++ [x]).
Proof. intros Hl Hx. apply Forall_app. split; [exact Hl | now constructor]. Qed.

Lemma Forall_filter' {A : Type} (P : A -> Prop) (g : A -> bool) (l : list A) :
  Forall P l -> Forall P (filter g l).
Proof.
  rewrite !Forall_forall. intros H x Hx. apply H. now apply filter_In in Hx as [Hx _].
Qed.

Lemma Forall_posts_voted (Q : post_row -> Prop) (anon ty : pystr) (tid v : Z) (d : db) :
  (forall p s, Q p ->
     Q (mk_post (p_id p) (p_user_id p) (p_title p) (p_body p) s (p_created_at p))) ->
  Forall Q (posts d) -> Forall Q (posts (voted anon ty tid v d)).
Proof.
  intros HQ H. unfold voted. destruct (pystr_eqb ty s_post); [|exact H].
  rewrite posts_update_score. apply Forall_map.
  rewrite Forall_forall in *. intros p Hp.
  destruct (p_id p =? tid); [apply HQ|]; now apply H.
Qed.

Lemma tokens_and_ids_written (e : env) (d d' : db) :
  written e d d' ->
  NoDup (map u_anon_id (users d))
  /\ Forall (fun i => 0 < i) (map u_id (users d))
  /\ Forall (fun i => 0 < i) (map p_id (posts d))
  /\ Forall (fun i => 0 < i) (map c_id (comments d)) ->
  NoDup (map u_anon_id (users d'))
  /\ Forall (fun i => 0 < i) (map u_id (users d'))
  /\ Forall (fun i => 0 < i) (map p_id (posts d'))
  /\ Forall (fun i => 0 < i) (map c_id (comments d')).
Proof.
  intros Hw (Ht & Hu & Hp & Hc).
  destruct Hw as [|name d' Hn Hi|uid t b Htt Hb|pid uid b Hpid Hr Hb|anon ty tid v Hty Htid Hv].
  - auto.
  - apply insert_user_inv in Hi as [Hfresh ->]. cbn [users posts comments].
    rewrite !map_app. simpl. repeat split; auto.
    + apply NoDup_snoc; [exact Ht|].
      intros Hin. apply in_map_iff in Hin as (u & Hu' & Hin). now apply (Hfresh u).
    + apply Forall_snoc; [exact Hu | apply next_rowid_pos].
  - cbn [insert_post users posts comments]. rewrite map_app. simpl.
    repeat split; auto. apply Forall_snoc; [exact Hp | apply next_rowid_pos].
  - cbn [insert_comment users posts comments]. rewrite map_app. simpl.
    repeat split; auto. apply Forall_snoc; [exact Hc | apply next_rowid_pos].
  - rewrite users_voted, comments_voted. repeat split; auto.
    rewrite Forall_map in *.
    apply Forall_posts_voted; [intros p s Hq; exact Hq | exact Hp].
Qed.

(** X2: in every reachable database the anon tokens of the user rows are
    pairwise distinct (the UNIQUE column), and the ids of the users, of the
    posts and of the comments are positive and grow along the table
    (AUTOINCREMENT), hence are pairwise distinct too. *)
Theorem tokens_distinct_ids_increasing (int_of_str : pystr -> option Z) (d : db) :
  reachable int_of_str d ->
  NoDup (map u_anon_id (users d))
  /\ (forall ids,
        ids = map u_id (users d) \/ ids = map p_id (posts d) \/ ids = map c_id (comments d) ->
        StronglySorted Z.lt ids /\ Forall (fun i => 0 < i) ids).
Proof.
  intros Hr.
  assert (H : NoDup (map u_anon_id (users d))
              /\ Forall (fun i => 0 < i) (map u_id (users d))
              /\ Forall (fun i => 0 < i) (map p_id (posts d))
              /\ Forall (fun i => 0 < i) (map c_id (comments d))).
  { revert d Hr. apply reachable_written_ind.
    - simpl. repeat split; constructor.
    - intros e d d' _ IH Hw. now apply (tokens_and_ids_written e d d'). }
  destruct H as (Ht & Hu & Hp & Hc).
  destruct (reachable_db_ok _ _ Hr) as [Su Sp Sc _].
  split; [exact Ht|].
  intros ids [-> | [-> | ->]]; auto.
Qed.

Lemma tokens_distinct_ids_increasing_witness :
  NoDup (map u_anon_id (users db_busy))
  /\ (forall ids,
        ids = map u_id (users db_busy) \/ ids = map p_id (posts db_busy)
        \/ ids = map c_id (comments db_busy) ->
        StronglySorted Z.lt ids /\ Forall (fun i => 0 < i) ids).
Proof. exact (tokens_distinct_ids_increasing ascii_int db_busy reachable_db_busy). Defined.

Lemma stored_text_written (e : env) (d d' : db) :
  written e d d' ->
  Forall (fun u => stored_text 30 (u_display_name u)) (users d)
  /\ Forall (fun p => stored_text 200 (p_title p) /\ stored_text 4000 (p_body p)) (posts d)
  /\ Forall (fun c => stored_text 1000 (c_body c) /\ c_post_id c <> 0) (comments d) ->
  Forall (fun u => stored_text 30 (u_display_name u)) (users d')
  /\ Forall (fun p => stored_text 200 (p_title p) /\ stored_text 4000 (p_body p)) (posts d')
  /\ Forall (fun c => stored_text 1000 (c_body c) /\ c_post_id c <> 0) (comments d').
Proof.
  intros Hw (Hu & Hp & Hc).
  destruct Hw as [|name d' Hn Hi|uid t b Htt Hb|pid uid b Hpid Hr Hb|anon ty tid v Hty Htid Hv].
  - auto.
  - apply insert_user_inv in Hi as [_ ->]. cbn [users posts comments].
    repeat split; auto. now apply Forall_snoc.
  - cbn [insert_post users posts comments].
    repeat split; auto. now apply Forall_snoc.
  - cbn [insert_comment users posts comments].
    repeat split; auto. now apply Forall_snoc.
  - rewrite users_voted, comments_voted. repeat split; auto.
    apply Forall_posts_voted; [intros p s Hq; exact Hq | exact Hp].
Qed.

(** X3: in every reachable database each stored display name, title, post
    body and comment body is non-empty, has at most 30, 200, 4000 and 1000
    characters respectively, and does not begin with whitespace; no comment
    has [post_id] 0. *)
Theorem stored_text_is_bounded (int_of_str : pystr -> option Z) (d : db) :
  reachable int_of_str d ->
  Forall (fun u => stored_text 30 (u_display_name u)) (users d)
  /\ Forall (fun p => stored_text 200 (p_title p) /\ stored_text 4000 (p_body p)) (posts d)
  /\ Forall (fun c => stored_text 1000 (c_body c) /\ c_post_id c <> 0) (comments d).
Proof.
  revert d. apply reachable_written_ind.
  - simpl. repeat split; constructor.
  - intros e d d' _ IH Hw. now apply (stored_text_written e d d').
Qed.

Lemma stored_text_is_bounded_witness :
  Forall (fun u => stored_text 30 (u_display_name u)) (users db_busy)
  /\ Forall (fun p => stored_text 200 (p_title p) /\ stored_text 4000 (p_body p))
            (posts db_busy)
  /\ Forall (fun c => stored_text 1000 (c_body c) /\ c_post_id c <> 0) (comments db_busy).
Proof. exact (stored_text_is_bounded ascii_int db_busy reachable_db_busy). Defined.

Lemma vote_rows_written (e : env) (d d' : db) :
  written e d d' ->
  Forall (fun r => (v_value r = -1 \/ v_value r = 1)
                   /\ (v_target_type r = s_post \/ v_target_type r = s_comment)
                   /\ 0 < v_target_id r <= max_int64) (votes d) ->
  Forall (fun r => (v_value r = -1 \/ v_value r = 1)
                   /\ (v_target_type r = s_post \/ v_target_type r = s_comment)
                   /\ 0 < v_target_id r <= max_int64) (votes d').
Proof.
  intros Hw H.
  destruct Hw as [|name d' Hn Hi|uid t b Htt Hb|pid uid b Hpid Hr Hb|anon ty tid v Hty Htid Hv].
  - exact H.
  - apply insert_user_inv in Hi as [_ ->]. exact H.
  - exact H.
  - exact H.
  - rewrite votes_voted, votes_after_replace.
    apply Forall_snoc; [now apply Forall_filter'|]. cbn. auto.
Qed.

Lemma vote_rows_reachable (int_of_str : pystr -> option Z) (d : db) :
  reachable int_of_str d ->
  Forall (fun r => (v_value r = -1 \/ v_value r = 1)
                   /\ (v_target_type r = s_post \/ v_target_type r = s_comment)
                   /\ 0 < v_target_id r <= max_int64) (votes d).
Proof.
  revert d. apply reachable_written_ind.
  - constructor.
  - intros e d d' _ IH Hw. now apply (vote_rows_written e d d').
Qed.

(** X4: in every reachable database each vote row has value -1 or 1, target
    type 'post' or 'comment' and a target id that is positive and within 64
    bits. *)
Theorem vote_rows_are_validated (int_of_str : pystr -> option Z) (d : db) (r : vote_row) :
  reachable int_of_str d -> In r (votes d) ->
  (v_value r = -1 \/ v_value r = 1)
  /\ (v_target_type r = s_post \/ v_target_type r = s_comment)
  /\ 0 < v_target_id r <= max_int64.
Proof.
  intros Hr Hin. pose proof (vote_rows_reachable _ _ Hr) as H.
  rewrite Forall_forall in H. now apply H.
Qed.

Lemma vote_rows_are_validated_witness :
  let r := mk_vote 4 (py "10.0.0.8") s_comment 1 (-1) in
  (v_value r = -1 \/ v_value r = 1)
  /\ (v_target_type r = s_post \/ v_target_type r = s_comment)
  /\ 0 < v_target_id r <= max_int64.
Proof.
  intros r.
  apply (vote_rows_are_validated ascii_int db_busy r reachable_db_busy).
  vm_compute. auto.
Defined.

Lemma votes_on_other_target (anon ty : pystr) (tid v : Z) (ty' : pystr) (tid' : Z) (d : db) :
  (ty', tid') <> (ty, tid) ->
  votes_on ty' tid' (insert_or_replace_vote anon ty tid v d) = votes_on ty' tid' d.
Proof.
  intros Hne. unfold votes_on. rewrite votes_after_replace, filter_app, filter_filter.
  simpl.
  replace (vote_on ty' tid' (mk_vote _ anon ty tid v)) with false.
  - rewrite app_nil_r. apply filter_ext. intros r.
    destruct (vote_on ty' tid' r) eqn:E1; [|now rewrite andb_false_r].
    rewrite andb_true_r. apply negb_true_iff.
    destruct (vote_key_eqb anon ty tid r) eqn:E2; [|reflexivity].
    apply vote_key_eqb_iff in E2. unfold vote_key in E2.
    unfold vote_on in E1. apply andb_true_iff in E1 as [Ea Eb].
    apply pystr_eqb_eq in Ea. apply Z.eqb_eq in Eb. congruence.
  - symmetry. unfold vote_on. simpl.
    destruct (pystr_eqb ty' ty) eqn:Ea; [|reflexivity].
    destruct (Z.eqb_spec tid' tid) as [Eb|Eb]; [|reflexivity].
    apply pystr_eqb_eq in Ea. congruence.
Qed.

Lemma votes_on_voted (anon ty : pystr) (tid v : Z) (ty' : pystr) (tid' : Z) (d : db) :
  votes_on ty' tid' (voted anon ty tid v d)
  = votes_on ty' tid' (insert_or_replace_vote anon ty tid v d).
Proof. unfold votes_on. now rewrite votes_voted. Qed.

Lemma score_written (e : env) (d d' : db) :
  written e d d' ->
  (forall p, In p (posts d) ->
     p_score p = 0 \/ p_score p = sum_values (votes_on s_post (p_id p) d)) ->
  forall p, In p (posts d') ->
    p_score p = 0 \/ p_score p = sum_values (votes_on s_post (p_id p) d').
Proof.
  intros Hw H.
  destruct Hw as [|name d' Hn Hi|uid t b Htt Hb|pid uid b Hpid Hr Hb|anon ty tid v Hty Htid Hv].
  - exact H.
  - apply insert_user_inv in Hi as [_ ->]. exact H.
  - intros p Hin. cbn [insert_post posts] in Hin.
    apply in_app_or in Hin as [Hin | [<- | []]]; [now apply H | now left].
  - exact H.
  - intros p Hin. rewrite votes_on_voted.
    unfold voted in Hin. destruct Hty as [-> | ->].
    + rewrite pystr_eqb_refl, posts_update_score in Hin.
      apply in_map_iff in Hin as (q & <- & Hq).
      destruct (Z.eqb_spec (p_id q) tid) as [E|E].
      * right. cbn [p_score p_id]. rewrite E. apply recalc_score_sum.
      * rewrite votes_on_other_target by congruence. now apply H.
    + replace (pystr_eqb s_comment s_post) with false in Hin by reflexivity.
      rewrite votes_on_other_target by discriminate. now apply H.
Qed.

Lemma sum_values_bound (l : list vote_row) :
  Forall (fun r => v_value r = -1 \/ v_value r = 1) l ->
  Z.abs (sum_values l) <= Z.of_nat (List.length l).
Proof.
  unfold sum_values. induction 1 as [|r l Hr Hl IH]; simpl List.length; simpl; [lia|].
  destruct Hr as [-> | ->]; lia.
Qed.

(** X5: in every reachable database a post's score is either 0 or the sum
    of the vote rows recorded on it, and in either case its absolute value
    is at most the number of those rows. *)
Theorem score_is_zero_or_vote_sum (int_of_str : pystr -> option Z) (d : db) (p : post_row) :
  reachable int_of_str d -> In p (posts d) ->
  (p_score p = 0 \/ p_score p = sum_values (votes_on s_post (p_id p) d))
  /\ Z.abs (p_score p) <= Z.of_nat (List.length (votes_on s_post (p_id p) d)).
Proof.
  intros Hr Hin.
  assert (H : p_score p = 0 \/ p_score p = sum_values (votes_on s_post (p_id p) d)).
  { revert d Hr p Hin. apply (reachable_written_ind int_of_str
      (fun d => forall p, In p (posts d) ->
         p_score p = 0 \/ p_score p = sum_values (votes_on s_post (p_id p) d))).
    - intros p [].
    - intros e d d' _ IH Hw. now apply (score_written e d d'). }
  split; [exact H|].
  destruct H as [-> | ->]; [simpl; lia|].
  apply sum_values_bound. apply Forall_filter'.
  eapply Forall_impl; [|apply (vote_rows_reachable _ _ Hr)].
  intros r (Hv & _). exact Hv.
Qed.

Lemma score_is_zero_or_vote_sum_witness :
  let p := mk_post 1 (Some 1) (py "one") (py "b1") 1 (py "2024-01-01T10:00:00") in
  (p_score p = 0 \/ p_score p = sum_values (votes_on s_post (p_id p) db_busy))
  /\ Z.abs (p_score p) <= Z.of_nat (List.length (votes_on s_post (p_id p) db_busy)).
Proof.
  intros p.
  apply (score_is_zero_or_vote_sum ascii_int db_busy p reachable_db_busy).
  vm_compute. left. reflexivity.
Defined.

(** ** How votes compose *)

Lemma sum_values_split (f : vote_row -> bool) (l : list vote_row) :
  sum_values l = sum_values (filter f l) + sum_values (filter (fun r => negb (f r)) l).
Proof.
  unfold sum_values. induction l as [|r l IH]; simpl; [reflexivity|].
  destruct (f r); simpl; lia.
Qed.

Lemma votes_of_in_votes_on (anon ty : pystr) (tid : Z) (d : db) :
  votes_of anon ty tid d
  = filter (fun r => pystr_eqb anon (v_user_anon r)) (votes_on ty tid d).
Proof.
  unfold votes_of, votes_on. rewrite filter_filter. apply filter_ext.
  intros r. rewrite vote_key_eqb_on. apply andb_comm.
Qed.

Lemma votes_on_sum_after_vote (int_of_str : pystr -> option Z) (req : request) (d : db)
    (ty : pystr) (tid v : Z) :
  valid_vote int_of_str req ty tid v ->
  sum_values (votes_on ty tid (db_after (vote int_of_str req d)))
  = sum_values (votes_on ty tid d)
    - sum_values (votes_of (voter_identity req) ty tid d) + v.
Proof.
  intros Hv.
  destruct (votes_on_after_vote int_of_str req d ty tid v Hv) as [id ->].
  rewrite sum_values_app, votes_of_in_votes_on.
  rewrite (sum_values_split (fun r => pystr_eqb (voter_identity req) (v_user_anon r))
             (votes_on ty tid d)).
  unfold sum_values at 2. simpl. lia.
Qed.

(** X6: a valid vote on a post moves the score by the difference between
    the new value and what the voter had on it before: the new score is the
    sum of the rows on the post before the vote, minus the voter's earlier
    rows, plus the value cast. *)
Theorem vote_changes_score_by_delta (int_of_str : pystr -> option Z) (req : request) (d : db)
    (tid v : Z) (p : post_row) :
  valid_vote int_of_str req s_post tid v ->
  In p (posts (db_after (vote int_of_str req d))) -> p_id p = tid ->
  p_score p
  = sum_values (votes_on s_post tid d)
    - sum_values (votes_of (voter_identity req) s_post tid d) + v.
Proof.
  intros Hv Hin Hid.
  rewrite (post_score_is_vote_sum_aux int_of_str req d tid v Hv p Hin Hid).
  now apply votes_on_sum_after_vote.
Qed.

Lemma vote_changes_score_by_delta_witness :
  let req := req_of None (Some (py "10.0.0.8")) (vote_payload s_post 1 1) in
  let p := mk_post 1 (Some 1) (py "one") (py "b1") 3 (py "2024-01-01T10:00:00") in
  p_score p
  = sum_values (votes_on s_post 1 db_busy)
    - sum_values (votes_of (voter_identity req) s_post 1 db_busy) + 1.
Proof.
  intros req p.
  apply (vote_changes_score_by_delta ascii_int req db_busy 1 1 p).
  - apply vote_payload_valid; [now left | unfold max_int64; lia | now right].
  - vm_compute. left. reflexivity.
  - reflexivity.
Defined.

Lemma filter_idem {A : Type} (f : A -> bool) (l : list A) : filter f (filter f l) = filter f l.
Proof.
  rewrite filter_filter. apply filter_ext. intros x. now destruct (f x).
Qed.

Lemma update_score_twice (s tid : Z) (l : list post_row) :
  let upd := fun p => if p_id p =? tid
               then mk_post (p_id p) (p_user_id p) (p_title p) (p_body p) s (p_created_at p)
               else p in
  map upd (map upd l) = map upd l.
Proof.
  intros upd. rewrite map_map. apply map_ext. intros p. unfold upd.
  destruct (p_id p =? tid) eqn:E; cbn [p_id]; now rewrite E.
Qed.

(** X7: casting the same valid vote twice is the same as casting it once:
    the second request leaves every post, score included, and every vote row
    as the first left them, except for the rowid of the voter's own row. *)
Theorem repeated_vote_is_idempotent (int_of_str : pystr -> option Z) (req : request) (d : db)
    (ty : pystr) (tid v : Z) :
  valid_vote int_of_str req ty tid v ->
  let d1 := db_after (vote int_of_str req d) in
  let d2 := db_after (vote int_of_str req d1) in
  posts d2 = posts d1
  /\ map vote_content (votes d2) = map vote_content (votes d1)
  /\ users d2 = users d1 /\ comments d2 = comments d1.
Proof.
  intros Hv d1 d2. unfold d2, d1.
  rewrite !(vote_valid int_of_str req _ ty tid v Hv). cbn [db_after].
  set (anon := voter_identity req).
  fold (voted anon ty tid v d). fold (voted anon ty tid v (voted anon ty tid v d)).
  assert (Hvotes : map vote_content (votes (voted anon ty tid v (voted anon ty tid v d)))
                   = map vote_content (votes (voted anon ty tid v d))).
  { rewrite !votes_voted, votes_after_replace. rewrite votes_voted.
    rewrite (votes_after_replace anon ty tid v d).
    rewrite filter_app, filter_idem. simpl.
    replace (vote_key_eqb anon ty tid (mk_vote _ anon ty tid v)) with true.
    - simpl. rewrite app_nil_r, !map_app. reflexivity.
    - unfold vote_key_eqb. simpl. now rewrite !pystr_eqb_refl, Z.eqb_refl. }
  repeat split.
  - unfold voted at 1. destruct (pystr_eqb ty s_post) eqn:Ety.
    + rewrite posts_update_score.
      change (posts (insert_or_replace_vote anon ty tid v (voted anon ty tid v d)))
        with (posts (voted anon ty tid v d)).
      assert (Hs : recalc_score ty tid
                     (insert_or_replace_vote anon ty tid v (voted anon ty tid v d))
                   = recalc_score ty tid (insert_or_replace_vote anon ty tid v d)).
      { rewrite !recalc_score_sum.
        rewrite votes_on_after_replace, votes_on_voted, (votes_on_after_replace anon ty tid v d).
        rewrite filter_app, filter_idem, !sum_values_app. simpl.
        rewrite pystr_eqb_refl. unfold sum_values. simpl. lia. }
      rewrite Hs. unfold voted. rewrite Ety, posts_update_score.
      apply update_score_twice.
    + unfold voted. now rewrite Ety.
  - exact Hvotes.
  - now rewrite !users_voted.
  - now rewrite !comments_voted.
Qed.

Lemma repeated_vote_is_idempotent_witness :
  let req := req_of None (Some (py "10.0.0.9")) (vote_payload s_post 1 (-1)) in
  let d1 := db_after (vote ascii_int req db_busy) in
  let d2 := db_after (vote ascii_int req d1) in
  posts d2 = posts d1
  /\ map vote_content (votes d2) = map vote_content (votes d1)
  /\ users d2 = users d1 /\ comments d2 = comments d1.
Proof.
  intros req.
  apply (repeated_vote_is_idempotent ascii_int req db_busy s_post 1 (-1)).
  apply vote_payload_valid; [now left | unfold max_int64; lia | now left].
Defined.

Lemma posts_voted_missing (anon : pystr) (tid v : Z) (d : db) :
  ~ In tid (map p_id (posts d)) -> posts (voted anon s_post tid v d) = posts d.
Proof.
  intros Hn. unfold voted. rewrite pystr_eqb_refl, posts_update_score.
  change (posts (insert_or_replace_vote anon s_post tid v d)) with (posts d).
  rewrite <- (map_id (posts d)) at 2. apply map_ext_in.
  intros p Hp. destruct (Z.eqb_spec (p_id p) tid) as [E|E]; [|reflexivity].
  exfalso. apply Hn. rewrite <- E. now apply in_map.
Qed.

(** X8: a valid vote on a post id that no post has is still recorded, and
    changes no post. If the next post created then receives that id, it is
    stored with score 0 although the voter's row on it is in the table. *)
Theorem vote_on_missing_post (int_of_str : pystr -> option Z) (req : request) (d : db)
    (tid v : Z) :
  valid_vote int_of_str req s_post tid v ->
  ~ In tid (map p_id (posts d)) ->
  let d1 := db_after (vote int_of_str req d) in
  status (vote int_of_str req d) = 204
  /\ posts d1 = posts d
  /\ (exists id, votes_of (voter_identity req) s_post tid d1
                 = [mk_vote id (voter_identity req) s_post tid v])
  /\ (forall reqp e kvs t b,
        request_data reqp = Ok (JDict kvs) ->
        assoc (py "title") kvs = Some (JStr t) ->
        assoc (py "body") kvs = Some (JStr b) ->
        strip t <> [] -> strip b <> [] ->
        encodable (slice_to 200 (strip t)) -> encodable (slice_to 4000 (strip b)) ->
        tid = next_rowid (seq_posts d) (map p_id (posts d)) ->
        let d2 := db_after (create_post reqp e d1) in
        (exists uid, posts d2 = posts d ++ [mk_post tid uid (slice_to 200 (strip t))
                                             (slice_to 4000 (strip b)) 0 (now e)])
        /\ votes_of (voter_identity req) s_post tid d2
           = votes_of (voter_identity req) s_post tid d1).
Proof.
  intros Hv Hn d1. unfold d1.
  pose proof (votes_of_after_vote int_of_str req d s_post tid v Hv) as Hrow.
  rewrite (vote_valid int_of_str req d s_post tid v Hv) in *. cbn [db_after status] in *.
  fold (voted (voter_identity req) s_post tid v d) in *.
  pose proof (posts_voted_missing (voter_identity req) tid v d Hn) as Hp.
  split; [reflexivity|]. split; [exact Hp|]. split; [exact Hrow|].
  intros reqp e kvs t b Hdata Ht Hb Hnt Hnb Het Heb Hnext. cbv zeta.
  rewrite (create_post_ok reqp e _ kvs t b) by assumption. cbn [db_after].
  split; [|reflexivity].
  unfold insert_post. cbn [posts]. rewrite Hp.
  replace (seq_posts (voted (voter_identity req) s_post tid v d)) with (seq_posts d)
    by (unfold voted; now rewrite pystr_eqb_refl).
  rewrite <- Hnext. eauto.
Qed.

Lemma vote_on_missing_post_witness :
  let req := req_of (Some (py "early")) None (vote_payload s_post 1 1) in
  let d1 := db_after (vote ascii_int req init_db) in
  let reqp := req_of None None (post_payload "one" "b1") in
  let d2 := db_after (create_post reqp env0 d1) in
  status (vote ascii_int req init_db) = 204
  /\ posts d1 = posts init_db
  /\ (exists uid, posts d2 = posts init_db ++ [mk_post 1 uid (slice_to 200 (strip (py "one")))
                                                 (slice_to 4000 (strip (py "b1"))) 0 (now env0)])
  /\ votes_of (voter_identity req) s_post 1 d2 = votes_of (voter_identity req) s_post 1 d1.
Proof.
  intros req d1 reqp d2.
  destruct (vote_on_missing_post ascii_int req init_db 1 1) as (Hs & Hp & _ & Hnext).
  - apply vote_payload_valid; [now left | unfold max_int64; lia | now right].
  - simpl. tauto.
  - split; [exact Hs|]. split; [exact Hp|].
    apply (Hnext reqp env0 (post_payload "one" "b1") (py "one") (py "b1")
             eq_refl eq_refl eq_refl); try discriminate; reflexivity.
Defined.

(** ** Rejected requests *)

Lemma int_field_missing (int_of_str : pystr -> option Z) (kvs : list (pystr * json))
    (k : pystr) :
  assoc k kvs = None \/ assoc k kvs = Some JNull ->
  int_field int_of_str (JDict kvs) k = Ok 0.
Proof. unfold int_field. simpl. intros [-> | ->]; reflexivity. Qed.

(** X9: for an object payload, [vote] first converts [target_id] and
    [value] with [int] (a missing or null one reads as 0) and then tests them.
    If both conversions succeed, the view answers 400 and writes nothing when
    the target type is not the str 'post' or 'comment', when the target id is
    not positive, or when the value is neither -1 nor 1. If [int] raises on
    [target_id], or on [value], the view answers 500 and writes nothing,
    whatever the other fields hold. *)
Theorem invalid_vote_rejected (int_of_str : pystr -> option Z) (req : request) (d : db)
    (kvs : list (pystr * json)) :
  request_data req = Ok (JDict kvs) ->
  (forall tid v,
     int_field int_of_str (JDict kvs) (py "target_id") = Ok tid ->
     int_field int_of_str (JDict kvs) (py "value") = Ok v ->
     (assoc (py "target_type") kvs <> Some (JStr s_post)
      /\ assoc (py "target_type") kvs <> Some (JStr s_comment))
     \/ tid <= 0 \/ (v <> -1 /\ v <> 1) ->
     vote int_of_str req d = mk_outcome 400 d (session_anon_id req))
  /\ (forall k, assoc k kvs = None \/ assoc k kvs = Some JNull ->
        int_field int_of_str (JDict kvs) k = Ok 0)
  /\ (forall ex,
        int_field int_of_str (JDict kvs) (py "target_id") = Raise ex ->
        vote int_of_str req d = mk_outcome 500 d (session_anon_id req))
  /\ (forall tid ex,
        int_field int_of_str (JDict kvs) (py "target_id") = Ok tid ->
        int_field int_of_str (JDict kvs) (py "value") = Raise ex ->
        vote int_of_str req d = mk_outcome 500 d (session_anon_id req)).
Proof.
  intros Hdata. split; [|split; [intros k; apply int_field_missing | split]].
  - intros tid v Htid Hv Hbad. unfold vote. rewrite Hdata. cbn [bind py_get].
    rewrite Htid, Hv. cbn [bind].
    destruct (assoc (py "target_type") kvs) as [[| | | |ty| |]|] eqn:Ety; try reflexivity.
    destruct Hbad as [[H1 H2] | [Hle | [H1 H2]]].
    + replace (pystr_eqb ty s_post) with false
        by (symmetry; apply pystr_eqb_neq; congruence).
      replace (pystr_eqb ty s_comment) with false
        by (symmetry; apply pystr_eqb_neq; congruence).
      reflexivity.
    + replace (tid <=? 0) with true by (symmetry; now apply Z.leb_le).
      now rewrite orb_true_r.
    + replace (v =? -1) with false by (symmetry; now apply Z.eqb_neq).
      replace (v =? 1) with false by (symmetry; now apply Z.eqb_neq).
      cbn [orb negb]. now rewrite orb_true_r.
  - intros ex Hex. unfold vote. rewrite Hdata. cbn [bind py_get].
    rewrite Hex. cbn [bind]. now rewrite (int_field_raises _ _ _ _ Hex).
  - intros tid ex Htid Hex. unfold vote. rewrite Hdata. cbn [bind py_get].
    rewrite Htid, Hex. cbn [bind]. now rewrite (int_field_raises _ _ _ _ Hex).
Qed.

Lemma invalid_vote_rejected_witness :
  let kvs := [(py "target_type", JStr s_post); (py "value", JInt 1)] in
  let kvx := [(py "target_type", JStr (py "x")); (py "target_id", JStr (py "abc"))] in
  vote ascii_int (req_of None None kvs) db_one_post = mk_outcome 400 db_one_post None
  /\ vote ascii_int (req_of None None kvx) db_one_post = mk_outcome 500 db_one_post None.
Proof.
  intros kvs kvx. split.
  - destruct (invalid_vote_rejected ascii_int (req_of None None kvs) db_one_post kvs eq_refl)
      as (H & Hmiss & _).
    apply (H 0 1); [apply Hmiss; now left | reflexivity | right; left; lia].
  - destruct (invalid_vote_rejected ascii_int (req_of None None kvx) db_one_post kvx eq_refl)
      as (_ & _ & H & _).
    apply (H ValueError). reflexivity.
Defined.

(** X10: an id that does not fit SQLite's 64-bit integers passes the views'
    own checks and then fails in the adapter: [vote] with such a target id and
    [create_comment] with such a post id answer 500 and write nothing. *)
Theorem out_of_range_ids_fail (int_of_str : pystr -> option Z) (req : request) (e : env)
    (d : db) (kvs : list (pystr * json)) :
  request_data req = Ok (JDict kvs) ->
  (forall ty tid v,
     assoc (py "target_type") kvs = Some (JStr ty) ->
     int_field int_of_str (JDict kvs) (py "target_id") = Ok tid ->
     int_field int_of_str (JDict kvs) (py "value") = Ok v ->
     ty = s_post \/ ty = s_comment -> v = -1 \/ v = 1 ->
     max_int64 < tid ->
     vote int_of_str req d = mk_outcome 500 d (session_anon_id req))
  /\ (forall n b,
        int_field int_of_str (JDict kvs) (py "post_id") = Ok n ->
        assoc (py "body") kvs = Some (JStr b) ->
        strip b <> [] ->
        n < min_int64 \/ max_int64 < n ->
        create_comment int_of_str req e d = mk_outcome 500 d (session_anon_id req)).
Proof.
  intros Hdata. split.
  - intros ty tid v Hty Htid Hv Hk Hval Hbig.
    unfold vote. rewrite Hdata. cbn [bind py_get]. rewrite Hty. cbn [bind].
    rewrite Htid, Hv. cbn [bind].
    assert (E1 : pystr_eqb ty s_post || pystr_eqb ty s_comment = true).
    { destruct Hk as [-> | ->]; [now rewrite pystr_eqb_refl|].
      rewrite (pystr_eqb_refl s_comment). now rewrite orb_true_r. }
    assert (E2 : (tid <=? 0) = false) by (apply Z.leb_gt; unfold max_int64 in Hbig; lia).
    assert (E3 : (v =? -1) || (v =? 1) = true) by (destruct Hval as [-> | ->]; reflexivity).
    rewrite E1, E2, E3. cbn [negb orb].
    unfold vote_tx, bind_int.
    replace (tid <=? max_int64) with false by (symmetry; apply Z.leb_gt; lia).
    now rewrite andb_false_r.
  - intros n b Hn Hb Hnb Hout.
    unfold create_comment. rewrite Hdata. cbn [bind].
    rewrite Hn, (text_field_str _ _ 1000 _ Hb). cbn [bind].
    assert (E1 : (n =? 0) = false)
      by (apply Z.eqb_neq; unfold min_int64, max_int64 in Hout; lia).
    assert (E2 : is_empty (slice_to 1000 (strip b)) = false).
    { destruct (slice_to 1000 (strip b)) eqn:E; [|reflexivity].
      apply slice_to_nil in E; [contradiction | lia]. }
    rewrite E1, E2. cbn [orb]. unfold bind_int.
    replace ((min_int64 <=? n) && (n <=? max_int64)) with false; [reflexivity|].
    symmetry. apply andb_false_iff.
    destruct Hout; [left | right]; apply Z.leb_gt; lia.
Qed.

Lemma out_of_range_ids_fail_witness :
  let kvs := [(py "target_type", JStr s_comment); (py "target_id", JInt (2 ^ 63));
              (py "value", JInt 1); (py "post_id", JInt (2 ^ 63)); (py "body", JStr (py "x"))] in
  vote ascii_int (req_of None None kvs) db_one_post = mk_outcome 500 db_one_post None
  /\ create_comment ascii_int (req_of None None kvs) env0 db_one_post
     = mk_outcome 500 db_one_post None.
Proof.
  intros kvs.
  destruct (out_of_range_ids_fail ascii_int (req_of None None kvs) env0 db_one_post kvs eq_refl)
    as [Hv Hc].
  split.
  - apply (Hv s_comment (2 ^ 63) 1); try reflexivity; auto.
  - apply (Hc (2 ^ 63) (py "x")); try reflexivity; [discriminate|].
    right. reflexivity.
Defined.

(** X11: a JSON payload that is empty or false ([null], [{}], [[]], [0],
    [""], [false]) is read as an empty object, and every writing view answers
    400; a payload that is true and not an object (a non-empty array or str, a
    number, [true]) makes every writing view answer 500. Nothing is written
    in either case. *)
Theorem payload_that_is_no_object (int_of_str : pystr -> option Z) (c : call)
    (req : request) (e : env) (d : db) (j : json) :
  c <> Signout ->
  get_json req = Ok j ->
  (truthy j = false ->
   handle int_of_str c req e d = mk_outcome 400 d (session_anon_id req))
  /\ (truthy j = true -> (forall kvs, j <> JDict kvs) ->
      handle int_of_str c req e d = mk_outcome 500 d (session_anon_id req)).
Proof.
  intros Hc Hj. split.
  - intros Hf.
    assert (Hdata : request_data req = Ok (JDict [])).
    { unfold request_data. rewrite Hj. cbn [bind]. now rewrite Hf. }
    destruct c; try contradiction; cbn [handle];
      unfold signin, create_post, create_comment, vote; rewrite Hdata; reflexivity.
  - intros Ht Hnd.
    assert (Hdata : request_data req = Ok j).
    { unfold request_data. rewrite Hj. cbn [bind]. now rewrite Ht. }
    destruct j; try (exfalso; eapply Hnd; reflexivity);
      destruct c; try contradiction; cbn [handle];
      unfold signin, create_post, create_comment, vote; rewrite Hdata; reflexivity.
Qed.

Lemma payload_that_is_no_object_witness :
  handle ascii_int Vote (mk_request None None (Ok JNull)) env0 db_one_post
  = mk_outcome 400 db_one_post None
  /\ handle ascii_int CreatePost (mk_request None None (Ok (JList [JInt 1]))) env0 db_one_post
     = mk_outcome 500 db_one_post None.
Proof.
  split.
  - apply (payload_that_is_no_object ascii_int Vote (mk_request None None (Ok JNull))
             env0 db_one_post JNull); [discriminate | reflexivity | reflexivity].
  - apply (payload_that_is_no_object ascii_int CreatePost
             (mk_request None None (Ok (JList [JInt 1]))) env0 db_one_post (JList [JInt 1]));
      [discriminate | reflexivity | reflexivity | discriminate].
Defined.

(** ** Signing in and being recognised *)

Lemma signin_ok (req : request) (e : env) (d : db) (kvs : list (pystr * json)) (name : pystr) :
  request_data req = Ok (JDict kvs) ->
  assoc (py "display_name") kvs = Some (JStr name) ->
  strip name <> [] -> encodable (slice_to 30 (strip name)) ->
  signin req e d
  = match insert_user (slice_to 30 (strip name)) (token e) (now e) d with
    | Ok d' => mk_outcome 204 d' (Some (token e))
    | Raise ex => mk_outcome (status_of_exn ex) d (session_anon_id req)
    end.
Proof.
  intros Hdata Hn Hne Henc. unfold signin. rewrite Hdata. cbn [bind].
  rewrite (text_field_str _ _ 30 _ Hn).
  assert (E : is_empty (slice_to 30 (strip name)) = false).
  { destruct (slice_to 30 (strip name)) eqn:E; [|reflexivity].
    apply slice_to_nil in E; [contradiction | lia]. }
  rewrite E, (bind_text_ok _ Henc). reflexivity.
Qed.

Lemma filter_unique {A B : Type} (f : A -> B) (eqb : B -> B -> bool) (l : list A) (u : A) :
  (forall a b, eqb a b = true <-> a = b) ->
  NoDup (map f l) -> In u l ->
  filter (fun x => eqb (f u) (f x)) l = [u].
Proof.
  intros Heqb. induction l as [|x l IH]; intros Hnd Hin; [destruct Hin|].
  inversion Hnd as [|? ? Hx Hl]; subst. simpl.
  destruct Hin as [-> | Hin].
  - rewrite (proj2 (Heqb _ _) eq_refl). f_equal.
    apply filter_none. intros y Hy.
    destruct (eqb (f u) (f y)) eqn:E; [|reflexivity].
    apply Heqb in E. exfalso. apply Hx. rewrite E. now apply in_map.
  - destruct (eqb (f u) (f x)) eqn:E; [|now apply IH].
    apply Heqb in E. exfalso. apply Hx. rewrite <- E. now apply in_map.
Qed.

(** X12: a sign-in with an object payload, a display name that is not
    blank and that SQLite can store as text (no lone surrogate in the part
    that is kept), and a non-empty token that no user row has answers 204,
    binds the token to the session, adds one user row and touches no other
    table; a request that carries that session is then recognised by
    [current_user] as that user, whose display name is the trimmed name cut
    to 30 characters. *)
Theorem signin_then_current_user (req : request) (e : env) (d : db)
    (kvs : list (pystr * json)) (name : pystr) :
  request_data req = Ok (JDict kvs) ->
  assoc (py "display_name") kvs = Some (JStr name) ->
  strip name <> [] -> encodable (slice_to 30 (strip name)) ->
  token e <> [] ->
  (forall u, In u (users d) -> u_anon_id u <> token e) ->
  status (signin req e d) = 204
  /\ session_after (signin req e d) = Some (token e)
  /\ (exists id,
        users (db_after (signin req e d))
        = users d ++ [mk_user id (slice_to 30 (strip name)) (token e) (now e)]
        /\ forall req',
             session_anon_id req' = session_after (signin req e d) ->
             current_user req' (db_after (signin req e d))
             = Some (mk_user id (slice_to 30 (strip name)) (token e) (now e)))
  /\ posts (db_after (signin req e d)) = posts d
  /\ comments (db_after (signin req e d)) = comments d
  /\ votes (db_after (signin req e d)) = votes d.
Proof.
  intros Hdata Hn Hne Henc Htok Hfresh.
  rewrite (signin_ok req e d kvs name) by assumption.
  unfold insert_user.
  assert (Hex : existsb (fun u => pystr_eqb (token e) (u_anon_id u)) (users d) = false).
  { apply not_true_iff_false. intros Hex.
    apply existsb_exists in Hex as (u & Hu & Heq).
    apply pystr_eqb_eq in Heq. now apply (Hfresh u). }
  rewrite Hex.
  cbn [status session_after db_after users posts comments votes].
  repeat split. eexists. split; [reflexivity|].
  intros req' Hs. unfold current_user. rewrite Hs.
  destruct (token e) as [|c t] eqn:Et; [contradiction|].
  unfold select_user_by_anon. cbn [users]. rewrite filter_app.
  rewrite filter_none.
  - simpl. now rewrite pystr_eqb_refl.
  - intros u Hu. apply pystr_eqb_neq. intros E. now apply (Hfresh u).
Qed.

Lemma signin_then_current_user_witness :
  let kvs := [(py "display_name", JStr (py "  a-display-name-longer-than-thirty-characters"))] in
  let req := req_of None None kvs in
  status (signin req env1 db_busy) = 204
  /\ session_after (signin req env1 db_busy) = Some (token env1)
  /\ (exists id,
        users (db_after (signin req env1 db_busy))
        = users db_busy ++ [mk_user id (py "a-display-name-longer-than-thi") (token env1) (now env1)]
        /\ forall req',
             session_anon_id req' = session_after (signin req env1 db_busy) ->
             current_user req' (db_after (signin req env1 db_busy))
             = Some (mk_user id (py "a-display-name-longer-than-thi") (token env1) (now env1)))
  /\ posts (db_after (signin req env1 db_busy)) = posts db_busy
  /\ comments (db_after (signin req env1 db_busy)) = comments db_busy
  /\ votes (db_after (signin req env1 db_busy)) = votes db_busy.
Proof.
  intros kvs req.
  apply (signin_then_current_user req env1 db_busy kvs
           (py "  a-display-name-longer-than-thirty-characters") eq_refl eq_refl);
    try discriminate; try reflexivity.
  vm_compute. intros u [<- | []]. discriminate.
Defined.

(** X13: a sign-in whose generated token already belongs to a user row
    violates UNIQUE(anon_id): the view answers 500, adds no user and leaves
    the session as it was. *)
Theorem signin_token_collision (req : request) (e : env) (d : db)
    (kvs : list (pystr * json)) (name : pystr) (u : user_row) :
  request_data req = Ok (JDict kvs) ->
  assoc (py "display_name") kvs = Some (JStr name) ->
  strip name <> [] -> encodable (slice_to 30 (strip name)) ->
  In u (users d) -> u_anon_id u = token e ->
  signin req e d = mk_outcome 500 d (session_anon_id req).
Proof.
  intros Hdata Hn Hne Henc Hu Htok.
  rewrite (signin_ok req e d kvs name) by assumption.
  unfold insert_user.
  replace (existsb _ (users d)) with true; [reflexivity|].
  symmetry. apply existsb_exists. exists u. split; [exact Hu|].
  now apply pystr_eqb_eq.
Qed.

Lemma signin_token_collision_witness :
  let kvs := [(py "display_name", JStr (py "wolf"))] in
  signin (req_of None None kvs) env0 db_busy = mk_outcome 500 db_busy None.
Proof.
  intros kvs.
  apply (signin_token_collision (req_of None None kvs) env0 db_busy kvs (py "wolf")
           (mk_user 1 (py "fox99") (py "tok-AAAAAAAAAAAA") (py "2024-01-01T09:59:59"))
           eq_refl eq_refl); try discriminate; try reflexivity.
  vm_compute. left. reflexivity.
Defined.

Lemma tokens_unique_reachable (int_of_str : pystr -> option Z) (d : db) :
  reachable int_of_str d -> NoDup (map u_anon_id (users d)).
Proof.
  intros Hr.
  assert (H : NoDup (map u_anon_id (users d))
              /\ Forall (fun i => 0 < i) (map u_id (users d))
              /\ Forall (fun i => 0 < i) (map p_id (posts d))
              /\ Forall (fun i => 0 < i) (map c_id (comments d))).
  { revert d Hr. apply reachable_written_ind.
    - simpl. repeat split; constructor.
    - intros e d d' _ IH Hw. now apply (tokens_and_ids_written e d d'). }
  apply H.
Qed.

(** X14: in every reachable database each user row is the one, and the only
    one, that [current_user] returns for a session that carries its token;
    sign-out does not delete it, it only empties the session, after which
    [current_user] finds nobody. *)
Theorem current_user_finds_own_row (int_of_str : pystr -> option Z) (d : db) (u : user_row)
    (req : request) :
  reachable int_of_str d ->
  In u (users d) -> u_anon_id u <> [] ->
  session_anon_id req = Some (u_anon_id u) ->
  current_user req d = Some u
  /\ db_after (signout req d) = d
  /\ forall req', session_anon_id req' = session_after (signout req d) ->
       current_user req' d = None.
Proof.
  intros Hr Hu Hne Hs. repeat split.
  - unfold current_user. rewrite Hs.
    destruct (u_anon_id u) as [|c t] eqn:Et; [contradiction|].
    unfold select_user_by_anon. rewrite <- Et.
    rewrite (filter_unique u_anon_id pystr_eqb (users d) u pystr_eqb_eq); auto.
    now apply (tokens_unique_reachable int_of_str).
  - intros req' Hs'. unfold current_user. rewrite Hs'. reflexivity.
Qed.

Lemma current_user_finds_own_row_witness :
  let u := mk_user 1 (py "fox99") (py "tok-AAAAAAAAAAAA") (py "2024-01-01T09:59:59") in
  let req := req_of (Some (py "tok-AAAAAAAAAAAA")) None [] in
  current_user req db_busy = Some u
  /\ db_after (signout req db_busy) = db_busy
  /\ forall req', session_anon_id req' = session_after (signout req db_busy) ->
       current_user req' db_busy = None.
Proof.
  intros u req.
  apply (current_user_finds_own_row ascii_int db_busy u req reachable_db_busy);
    try discriminate; try reflexivity.
  vm_compute. left. reflexivity.
Defined.

(** ** What the listing shows *)

Lemma left_join_in_some {A : Type} (uid : A -> option Z) (us : list user_row) (l : list A)
    (r : A) (u : user_row) :
  In r l -> uid r = Some (u_id u) -> In u us ->
  In (r, Some (u_display_name u)) (left_join_users uid us l).
Proof.
  intros Hr Hid Hu. unfold left_join_users. apply in_flat_map. exists r.
  split; [exact Hr|]. rewrite Hid.
  assert (Hin : In u (filter (fun x => u_id u =? u_id x) us)).
  { apply filter_In. split; [exact Hu | apply Z.eqb_refl]. }
  destruct (filter (fun x => u_id u =? u_id x) us) as [|x ms]; [destruct Hin|].
  apply in_map_iff. exists u. auto.
Qed.

Lemma left_join_in_none {A : Type} (uid : A -> option Z) (us : list user_row) (l : list A)
    (r : A) :
  In r l -> uid r = None -> In (r, None) (left_join_users uid us l).
Proof.
  intros Hr Hid. unfold left_join_users. apply in_flat_map. exists r.
  split; [exact Hr|]. rewrite Hid. now left.
Qed.

Lemma current_user_in (req : request) (d : db) (u : user_row) :
  current_user req d = Some u -> In u (users d).
Proof.
  unfold current_user. destruct (session_anon_id req) as [[|c a]|]; try discriminate.
  unfold select_user_by_anon. intros H.
  destruct (filter _ (users d)) as [|x l] eqn:E; [discriminate|].
  injection H as ->.
  assert (Hin : In u (u :: l)) by now left.
  rewrite <- E in Hin. now apply filter_In in Hin as [Hin _].
Qed.

(** X15: a post created by a request that [current_user] recognises is
    listed with that user's display name, and a post created by a guest is
    listed with no display name. *)
Theorem post_listed_with_author (req : request) (e : env) (d : db)
    (kvs : list (pystr * json)) (t b : pystr) :
  request_data req = Ok (JDict kvs) ->
  assoc (py "title") kvs = Some (JStr t) ->
  assoc (py "body") kvs = Some (JStr b) ->
  strip t <> [] -> strip b <> [] ->
  encodable (slice_to 200 (strip t)) -> encodable (slice_to 4000 (strip b)) ->
  exists pv,
    In pv (posts_api (db_after (create_post req e d)))
    /\ pv_id pv = next_rowid (seq_posts d) (map p_id (posts d))
    /\ pv_title pv = slice_to 200 (strip t)
    /\ pv_display_name pv = option_map u_display_name (current_user req d).
Proof.
  intros Hdata Ht Hb Hnt Hnb Het Heb.
  rewrite (create_post_ok req e d kvs t b) by assumption. cbn [db_after].
  set (new := mk_post (next_rowid (seq_posts d) (map p_id (posts d)))
                      (option_map u_id (current_user req d))
                      (slice_to 200 (strip t)) (slice_to 4000 (strip b)) 0 (now e)).
  assert (Hnew : In new (posts (insert_post (option_map u_id (current_user req d))
                                  (slice_to 200 (strip t)) (slice_to 4000 (strip b))
                                  (now e) d))).
  { cbn [insert_post posts]. apply in_or_app. right. now left. }
  assert (Hj : In (new, option_map u_display_name (current_user req d))
                  (left_join_users p_user_id (users d)
                     (posts (insert_post (option_map u_id (current_user req d))
                               (slice_to 200 (strip t)) (slice_to 4000 (strip b))
                               (now e) d)))).
  { destruct (current_user req d) as [u|] eqn:Ecu.
    - apply left_join_in_some; [exact Hnew | reflexivity | now apply (current_user_in req)].
    - now apply left_join_in_none. }
  eexists. split.
  - unfold posts_api. apply in_map_iff. eexists. split; [reflexivity|].
    eapply Permutation_in; [apply Permutation_sym, order_by_perm | exact Hj].
  - repeat split.
Qed.

Lemma post_listed_with_author_witness :
  let req := req_of (Some (py "tok-AAAAAAAAAAAA")) None (post_payload "three" "b3") in
  exists pv,
    In pv (posts_api (db_after (create_post req env1 db_busy)))
    /\ pv_id pv = next_rowid (seq_posts db_busy) (map p_id (posts db_busy))
    /\ pv_title pv = slice_to 200 (strip (py "three"))
    /\ pv_display_name pv = option_map u_display_name (current_user req db_busy).
Proof.
  intros req.
  apply (post_listed_with_author req env1 db_busy (post_payload "three" "b3")
           (py "three") (py "b3") eq_refl eq_refl eq_refl);
    try discriminate; reflexivity.
Defined.

(** X16: the listing of a reachable database shows every post exactly once,
    with the id, title, body, score and creation time of its row. *)
Theorem every_post_listed_once (int_of_str : pystr -> option Z) (d : db) :
  reachable int_of_str d ->
  Permutation (map pv_shown (posts_api d)) (map post_shown (posts d)).
Proof.
  intros Hr. pose proof (reachable_db_ok _ _ Hr) as Hd.
  unfold posts_api. rewrite map_map.
  erewrite map_ext with (g := fun pu : post_row * option pystr => post_shown (fst pu))
    by (intros [p dn]; reflexivity).
  rewrite order_by_perm, <- (map_map fst post_shown).
  rewrite map_fst_left_join by apply Hd. reflexivity.
Qed.

Lemma every_post_listed_once_witness :
  Permutation (map pv_shown (posts_api db_busy)) (map post_shown (posts db_busy)).
Proof. exact (every_post_listed_once ascii_int db_busy reachable_db_busy). Defined.

Lemma listed_comment_belongs (d : db) (pv : post_view) (cv : comment_view) :
  In pv (posts_api d) -> In cv (pv_comments pv) ->
  cv_post_id cv = pv_id pv /\ In (pv_id pv) (map p_id (posts d)).
Proof.
  unfold posts_api. intros Hpv Hcv.
  apply in_map_iff in Hpv as ([p dn] & <- & Hp).
  apply (Permutation_in _ (order_by_perm _ _)) in Hp.
  apply left_join_fst in Hp. cbn [fst] in Hp. cbn [pv_comments pv_id] in *.
  split; [|now apply in_map].
  unfold select_comments in Hcv.
  apply in_map_iff in Hcv as ([c dm] & <- & Hc).
  apply (Permutation_in _ (order_by_perm _ _)) in Hc.
  apply filter_In in Hc as [_ Hc]. cbn [fst cv_post_id] in *. now apply Z.eqb_eq.
Qed.

(** X17: [create_comment] does not look the post up: a comment on a post id
    that no post has is stored with a 204 answer, and it is then shown
    nowhere, because every comment in the listing sits under the post whose
    id is its [post_id]. *)
Theorem comment_on_missing_post_is_never_listed (int_of_str : pystr -> option Z)
    (req : request) (e : env) (d : db) (kvs : list (pystr * json)) (n : Z) (b : pystr) :
  request_data req = Ok (JDict kvs) ->
  int_field int_of_str (JDict kvs) (py "post_id") = Ok n ->
  assoc (py "body") kvs = Some (JStr b) ->
  n <> 0 -> min_int64 <= n <= max_int64 ->
  strip b <> [] -> encodable (slice_to 1000 (strip b)) ->
  ~ In n (map p_id (posts d)) ->
  status (create_comment int_of_str req e d) = 204
  /\ (exists id uid,
        comments (db_after (create_comment int_of_str req e d))
        = comments d ++ [mk_comment id n uid (slice_to 1000 (strip b)) (now e)])
  /\ forall pv cv,
       In pv (posts_api (db_after (create_comment int_of_str req e d))) ->
       In cv (pv_comments pv) ->
       cv_post_id cv = pv_id pv /\ cv_post_id cv <> n.
Proof.
  intros Hdata Hn Hb Hn0 Hr Hnb Heb Hmiss.
  rewrite (create_comment_ok int_of_str req e d kvs n b) by assumption.
  cbn [status db_after]. split; [reflexivity|]. split.
  - cbn [insert_comment comments]. eauto.
  - intros pv cv Hpv Hcv.
    destruct (listed_comment_belongs _ pv cv Hpv Hcv) as [Heq Hin].
    split; [exact Heq|]. cbn [insert_comment posts] in Hin. congruence.
Qed.

Lemma comment_on_missing_post_is_never_listed_witness :
  let kvs := comment_payload 99 "lost" in
  let req := req_of None None kvs in
  status (create_comment ascii_int req env1 db_busy) = 204
  /\ (exists id uid,
        comments (db_after (create_comment ascii_int req env1 db_busy))
        = comments db_busy ++ [mk_comment id 99 uid (slice_to 1000 (strip (py "lost"))) (now env1)])
  /\ forall pv cv,
       In pv (posts_api (db_after (create_comment ascii_int req env1 db_busy))) ->
       In cv (pv_comments pv) ->
       cv_post_id cv = pv_id pv /\ cv_post_id cv <> 99.
Proof.
  intros kvs req.
  apply (comment_on_missing_post_is_never_listed ascii_int req env1 db_busy kvs 99 (py "lost")
           eq_refl eq_refl eq_refl); try discriminate; try reflexivity.
  - unfold min_int64, max_int64. lia.
  - vm_compute. intros [H | [H | []]]; discriminate.
Defined.

(** ** Further edge cases *)

(** X18: two valid votes on one post by requests with different voter
    identities both count: each identity ends with its own row, and the score
    is the earlier sum, less what the two had on the post before, plus the
    two values cast. One caller who votes once by address and once under a
    session token is two voters. *)
Theorem distinct_identities_both_count (int_of_str : pystr -> option Z) (req1 req2 : request)
    (d : db) (tid v1 v2 : Z) (p : post_row) :
  valid_vote int_of_str req1 s_post tid v1 ->
  valid_vote int_of_str req2 s_post tid v2 ->
  voter_identity req1 <> voter_identity req2 ->
  let d2 := db_after (vote int_of_str req2 (db_after (vote int_of_str req1 d))) in
  In p (posts d2) -> p_id p = tid ->
  (exists id, votes_of (voter_identity req1) s_post tid d2
              = [mk_vote id (voter_identity req1) s_post tid v1])
  /\ (exists id, votes_of (voter_identity req2) s_post tid d2
                 = [mk_vote id (voter_identity req2) s_post tid v2])
  /\ p_score p
     = sum_values (votes_on s_post tid d)
       - sum_values (votes_of (voter_identity req1) s_post tid d)
       - sum_values (votes_of (voter_identity req2) s_post tid d)
       + v1 + v2.
Proof.
  intros Hv1 Hv2 Hne d2 Hin Hid. unfold d2 in *.
  set (d1 := db_after (vote int_of_str req1 d)) in *.
  assert (Hother : votes_of (voter_identity req2) s_post tid d1
                   = votes_of (voter_identity req2) s_post tid d).
  { unfold d1, votes_of at 1. rewrite (votes_after_vote _ _ _ _ _ _ Hv1).
    apply votes_of_other_key. congruence. }
  repeat split.
  - destruct (votes_of_after_vote int_of_str req1 d s_post tid v1 Hv1) as [id Hrow].
    exists id. rewrite <- Hrow. unfold votes_of at 1.
    rewrite (votes_after_vote _ _ _ _ _ _ Hv2).
    apply votes_of_other_key. congruence.
  - now apply votes_of_after_vote.
  - rewrite (post_score_is_vote_sum_aux int_of_str req2 d1 tid v2 Hv2 p Hin Hid).
    rewrite (votes_on_sum_after_vote int_of_str req2 d1 s_post tid v2 Hv2), Hother.
    unfold d1. rewrite (votes_on_sum_after_vote int_of_str req1 d s_post tid v1 Hv1).
    lia.
Qed.

Lemma distinct_identities_both_count_witness :
  let req1 := req_of None (Some (py "10.0.0.9")) (vote_payload s_post 2 1) in
  let req2 := req_of (Some (py "tok-BBBBBBBBBBBB")) (Some (py "10.0.0.9")) (vote_payload s_post 2 1) in
  let d2 := db_after (vote ascii_int req2 (db_after (vote ascii_int req1 db_busy))) in
  let p := mk_post 2 None (py "two") (py "b2") 2 (py "2024-01-01T10:00:01") in
  (exists id, votes_of (voter_identity req1) s_post 2 d2
              = [mk_vote id (voter_identity req1) s_post 2 1])
  /\ (exists id, votes_of (voter_identity req2) s_post 2 d2
                 = [mk_vote id (voter_identity req2) s_post 2 1])
  /\ p_score p
     = sum_values (votes_on s_post 2 db_busy)
       - sum_values (votes_of (voter_identity req1) s_post 2 db_busy)
       - sum_values (votes_of (voter_identity req2) s_post 2 db_busy)
       + 1 + 1.
Proof.
  intros req1 req2 d2 p.
  apply (distinct_identities_both_count ascii_int req1 req2 db_busy 2 1 1 p).
  - apply vote_payload_valid; [now left | unfold max_int64; lia | now right].
  - apply vote_payload_valid; [now left | unfold max_int64; lia | now right].
  - discriminate.
  - vm_compute. right. left. reflexivity.
  - reflexivity.
Defined.

(** X19: a title, body, comment body or display name that holds a lone
    surrogate code point within the part that is kept passes the views' own
    checks and then fails in the adapter: the view answers 500 and writes
    nothing. *)
Theorem unencodable_text_fails (int_of_str : pystr -> option Z) (req : request) (e : env)
    (d : db) (kvs : list (pystr * json)) :
  request_data req = Ok (JDict kvs) ->
  (forall name,
     assoc (py "display_name") kvs = Some (JStr name) ->
     existsb is_surrogate (slice_to 30 (strip name)) = true ->
     signin req e d = mk_outcome 500 d (session_anon_id req))
  /\ (forall t b,
        assoc (py "title") kvs = Some (JStr t) ->
        assoc (py "body") kvs = Some (JStr b) ->
        strip t <> [] -> strip b <> [] ->
        existsb is_surrogate (slice_to 200 (strip t)) = true
        \/ existsb is_surrogate (slice_to 4000 (strip b)) = true ->
        create_post req e d = mk_outcome 500 d (session_anon_id req))
  /\ (forall n b,
        int_field int_of_str (JDict kvs) (py "post_id") = Ok n ->
        assoc (py "body") kvs = Some (JStr b) ->
        n <> 0 ->
        existsb is_surrogate (slice_to 1000 (strip b)) = true ->
        create_comment int_of_str req e d = mk_outcome 500 d (session_anon_id req)).
Proof.
  intros Hdata.
  assert (Hne : forall n s, existsb is_surrogate (slice_to n s) = true ->
                            is_empty (slice_to n s) = false).
  { intros n s H. destruct (slice_to n s); [discriminate | reflexivity]. }
  assert (Hne' : forall n s, (0 < n)%nat -> s <> [] -> is_empty (slice_to n s) = false).
  { intros n s Hn Hs. destruct (slice_to n s) eqn:E; [|reflexivity].
    apply slice_to_nil in E; [contradiction | exact Hn]. }
  repeat split.
  - intros name Hn Hsur. unfold signin. rewrite Hdata. cbn [bind].
    rewrite (text_field_str _ _ 30 _ Hn), (Hne _ _ Hsur).
    unfold bind_text. now rewrite Hsur.
  - intros t b Ht Hb Hnt Hnb Hsur. unfold create_post. rewrite Hdata. cbn [bind].
    rewrite (text_field_str _ _ 200 _ Ht), (text_field_str _ _ 4000 _ Hb). cbn [bind].
    rewrite (Hne' 200%nat _ ltac:(lia) Hnt), (Hne' 4000%nat _ ltac:(lia) Hnb). cbn [orb].
    unfold bind_text. destruct Hsur as [Hs | Hs].
    + now rewrite Hs.
    + rewrite Hs. now destruct (existsb is_surrogate (slice_to 200 (strip t))).
  - intros n b Hn Hb Hn0 Hsur. unfold create_comment. rewrite Hdata. cbn [bind].
    rewrite Hn, (text_field_str _ _ 1000 _ Hb). cbn [bind].
    rewrite (proj2 (Z.eqb_neq n 0) Hn0), (Hne _ _ Hsur). cbn [orb].
    unfold bind_text, bind_int. rewrite Hsur.
    now destruct ((min_int64 <=? n) && (n <=? max_int64)).
Qed.

Lemma unencodable_text_fails_witness :
  let kvs := [(py "title", JStr [72; 55296; 105]%N); (py "body", JStr (py "b"))] in
  create_post (req_of None None kvs) env0 db_one_post = mk_outcome 500 db_one_post None.
Proof.
  intros kvs.
  destruct (unencodable_text_fails ascii_int (req_of None None kvs) env0 db_one_post kvs
              eq_refl) as (_ & Hp & _).
  apply (Hp [72; 55296; 105]%N (py "b") eq_refl eq_refl); try discriminate.
  left. reflexivity.
Defined.

(** X20: the post id of a comment goes through [int()], which cuts a JSON
    float toward zero: a comment whose [post_id] is a float strictly between
    -1 and 1 is rejected with 400; with any other finite float (within 64
    bits once cut) it is stored under the truncated id. *)
Theorem fractional_post_id_is_truncated (int_of_str : pystr -> option Z) (req : request)
    (e : env) (d : db) (kvs : list (pystr * json)) (num : Z) (den : positive) (b : pystr) :
  request_data req = Ok (JDict kvs) ->
  assoc (py "post_id") kvs = Some (JFloat (FFinite num den)) ->
  assoc (py "body") kvs = Some (JStr b) ->
  strip b <> [] -> encodable (slice_to 1000 (strip b)) ->
  (Z.abs num < Z.pos den ->
   create_comment int_of_str req e d = mk_outcome 400 d (session_anon_id req))
  /\ (Z.pos den <= Z.abs num -> min_int64 <= Z.quot num (Z.pos den) <= max_int64 ->
      status (create_comment int_of_str req e d) = 204
      /\ exists id uid,
           comments (db_after (create_comment int_of_str req e d))
           = comments d ++ [mk_comment id (Z.quot num (Z.pos den)) uid
                              (slice_to 1000 (strip b)) (now e)]).
Proof.
  intros Hdata Hp Hb Hnb Heb.
  assert (Hint : int_field int_of_str (JDict kvs) (py "post_id")
                 = Ok (if num =? 0 then 0 else Z.quot num (Z.pos den))).
  { unfold int_field. simpl. rewrite Hp. simpl. now destruct (num =? 0). }
  split.
  - intros Hsmall.
    assert (Hq : (if num =? 0 then 0 else Z.quot num (Z.pos den)) = 0).
    { destruct (num =? 0); [reflexivity|]. apply Z.quot_small_iff; lia. }
    rewrite Hq in Hint.
    unfold create_comment. rewrite Hdata. cbn [bind].
    rewrite Hint. cbn [bind]. now rewrite (text_field_str _ _ 1000 _ Hb).
  - intros Hbig Hr.
    assert (Hq : Z.quot num (Z.pos den) <> 0).
    { intros E. apply Z.quot_small_iff in E; lia. }
    assert (Hn0 : (num =? 0) = false) by (apply Z.eqb_neq; lia).
    rewrite Hn0 in Hint.
    rewrite (create_comment_ok int_of_str req e d kvs (Z.quot num (Z.pos den)) b)
      by assumption.
    split; [reflexivity|]. cbn [db_after insert_comment comments]. eauto.
Qed.

Lemma fractional_post_id_is_truncated_witness :
  let kvs := [(py "post_id", JFloat (FFinite 19 10)); (py "body", JStr (py "x"))] in
  let req := req_of None None kvs in
  status (create_comment ascii_int req env1 db_busy) = 204
  /\ exists id uid,
       comments (db_after (create_comment ascii_int req env1 db_busy))
       = comments db_busy ++ [mk_comment id (Z.quot 19 10) uid
                                (slice_to 1000 (strip (py "x"))) (now env1)].
Proof.
  intros kvs req.
  destruct (fractional_post_id_is_truncated ascii_int req env1 db_busy kvs 19 10 (py "x")
              eq_refl eq_refl eq_refl) as [_ H]; try discriminate; try reflexivity.
  apply H; [vm_compute; discriminate | split; vm_compute; discriminate].
Defined.
